(** * The automation engine of [automations.py]

    A shallow embedding of [AutomationEngine] and [ProductAutomationAPI]:
    the registry ([self.automations]), the dispatcher
    ([execute_automation], [_run_action], the twelve action handlers,
    [_store_result]), the scheduler pass ([run_scheduled_automations]) and
    the two fan-out entry points ([handle_webhook], [check_thresholds]).

    Conventions of the embedding.
    - A Python [dict] is an association list in insertion order; a key
      occurs at most once in the lists the program builds, and lookups
      take the first binding.
    - An [Automation] object lives in [self.automations] and nowhere else,
      so the dictionary is the object store and a key is the reference to
      the object: an attribute assignment rewrites the binding of the key.
    - [int] is [Z]; [float] is the rational it denotes ([Q]; NaN, the
      infinities and the rounding of float products are not modelled).
    - [datetime] is the number of microseconds since 0001-01-01T00:00:00,
      [timedelta] a number of microseconds.
    - Everything outside the process is an oracle of the environment
      [Env]: the readings of [datetime.now()], the replies to
      [http_client.post], the two date formatters.
    - A computation maps a state to an outcome (a value or a raised
      exception) and a state: what was mutated before an exception stays
      mutated.
    - [print] is not modelled, nor [start_automation_loop], [stop],
      [list_automations] and the command line. *)

From Stdlib Require Import ZArith QArith Qround Ascii String DecimalString List Bool Lia.
Import ListNotations.
Local Open Scope string_scope.
Local Open Scope Z_scope.
Set Warnings "-register-all".

(** ** Values *)

(** JSON-like Python values: contexts, trigger configurations, results. *)
Inductive value : Type :=
| VNone
| VBool (b : bool)
| VInt (z : Z)
| VFloat (q : Q)
| VStr (s : string)
| VList (l : list value)
| VDict (d : list (string * value)).

Definition Dict : Type := list (string * value).

(** Exceptions, all of them subclasses of [Exception]. *)
Inductive exn : Type :=
| TypeError
| OverflowError
| IOError (msg : string).

Inductive Outcome (A : Type) : Type :=
| Ret (a : A)
| Raise (e : exn).
Arguments Ret {A} a.
Arguments Raise {A} e.

(** ** Dictionaries *)

Section Dictionaries.
Context {V : Type}.

(** [d.get(k)] *)
Fixpoint dict_get (d : list (string * V)) (k : string) : option V :=
  match d with
  | [] => None
  | (k', v) :: rest => if String.eqb k' k then Some v else dict_get rest k
  end.

(** [d.get(k, default)] *)
Definition dict_get_default (d : list (string * V)) (k : string) (default : V) : V :=
  match dict_get d k with
  | Some v => v
  | None => default
  end.

(** [d[k] = v]: an existing key keeps its place. *)
Fixpoint dict_set (d : list (string * V)) (k : string) (v : V) : list (string * V) :=
  match d with
  | [] => [(k, v)]
  | (k', v') :: rest =>
      if String.eqb k' k then (k', v) :: rest else (k', v') :: dict_set rest k v
  end.

(** An attribute assignment on the object bound to [k]. *)
Fixpoint dict_update (d : list (string * V)) (k : string) (f : V -> V) : list (string * V) :=
  match d with
  | [] => []
  | (k', v') :: rest =>
      if String.eqb k' k then (k', f v') :: rest else (k', v') :: dict_update rest k f
  end.

(** [d.values()] *)
Definition dict_values (d : list (string * V)) : list V := map snd d.

Definition dict_keys (d : list (string * V)) : list string := map fst d.
End Dictionaries.

(** ** The data model *)

Inductive AutomationLevel : Type := DISCOVERY | GENERATION | OPTIMIZATION | SCALING.

(** [AutomationLevel.value] *)
Definition level_value (l : AutomationLevel) : Z :=
  match l with
  | DISCOVERY => 1
  | GENERATION => 2
  | OPTIMIZATION => 3
  | SCALING => 4
  end.

Inductive AutomationTrigger : Type := SCHEDULED | EVENT | THRESHOLD | MANUAL.

Definition trigger_eqb (a b : AutomationTrigger) : bool :=
  match a, b with
  | SCHEDULED, SCHEDULED | EVENT, EVENT | THRESHOLD, THRESHOLD | MANUAL, MANUAL => true
  | _, _ => false
  end.

Record Automation : Type := mkAutomation {
  id : string;
  name : string;
  level : AutomationLevel;
  trigger : AutomationTrigger;
  trigger_config : Dict;
  action : string;
  ai_providers : list string;
  enabled : bool;
  last_run : option Z;
  run_count : Z
}.

(** The constructor call of the source: [enabled], [last_run] and
    [run_count] take their defaults. *)
Definition new_automation (i n : string) (l : AutomationLevel) (t : AutomationTrigger)
    (cfg : Dict) (act : string) (providers : list string) : Automation :=
  mkAutomation i n l t cfg act providers true None 0.

Definition set_last_run (t : Z) (a : Automation) : Automation :=
  mkAutomation (id a) (name a) (level a) (trigger a) (trigger_config a) (action a)
    (ai_providers a) (enabled a) (Some t) (run_count a).

Definition incr_run_count (a : Automation) : Automation :=
  mkAutomation (id a) (name a) (level a) (trigger a) (trigger_config a) (action a)
    (ai_providers a) (enabled a) (last_run a) (run_count a + 1).

Definition set_enabled (b : bool) (a : Automation) : Automation :=
  mkAutomation (id a) (name a) (level a) (trigger a) (trigger_config a) (action a)
    (ai_providers a) b (last_run a) (run_count a).

(** ** The world around the engine *)

(** What [http_client.post] returns: [response.json()] gives the decoded
    body or raises. *)
Record Response : Type := mkResponse { json : Outcome value }.

Record Env : Type := mkEnv {
  BRAINOPS_API : string;
  (** the value of the n-th reading of [datetime.now()] *)
  now_at : nat -> Z;
  (** the n-th call of [http_client.post], at a url with a JSON body *)
  transport : nat -> string -> value -> Outcome Response;
  (** [strftime('%Y%m%d_%H%M%S')] and [isoformat()] *)
  strftime : Z -> string;
  isoformat : Z -> string
}.

(** The observable steps of one run, in program order. *)
Inductive Event : Type :=
| EvHandlerCall (action_id : string)
| EvHandlerReturn (action_id : string)
| EvPost (url : string) (body : value)
| EvSetLastRun (automation_id : string) (t : Z)
| EvSetRunCount (automation_id : string) (n : Z).

Record State : Type := mkState {
  automations : list (string * Automation);
  clock_reads : nat;
  posts : nat;
  trace : list Event
}.

(** ** Computations *)

Definition M (A : Type) : Type := State -> Outcome A * State.

Definition ret {A : Type} (a : A) : M A := fun st => (Ret a, st).

Definition raise {A : Type} (e : exn) : M A := fun st => (Raise e, st).

Definition bind {A B : Type} (m : M A) (k : A -> M B) : M B :=
  fun st =>
    match m st with
    | (Ret a, st') => k a st'
    | (Raise e, st') => (Raise e, st')
    end.

(** [try: m except Exception as e: h e] *)
Definition try_except {A : Type} (m : M A) (h : exn -> M A) : M A :=
  fun st =>
    match m st with
    | (Ret a, st') => (Ret a, st')
    | (Raise e, st') => h e st'
    end.

Definition lift {A : Type} (o : Outcome A) : M A := fun st => (o, st).

Declare Scope action_scope.
Delimit Scope action_scope with action.
Notation "x <- m ;; k" := (bind m (fun x => k))
  (at level 100, m at next level, right associativity) : action_scope.
Notation "m ;; k" := (bind m (fun _ => k))
  (at level 100, right associativity) : action_scope.
Local Open Scope action_scope.

Definition log (e : Event) : M unit :=
  fun st => (Ret tt, mkState (automations st) (clock_reads st) (posts st) (trace st ++ [e])).

(** [for x in xs: body x] *)
Fixpoint for_each {A : Type} (xs : list A) (body : A -> M unit) : M unit :=
  match xs with
  | [] => ret tt
  | x :: rest => body x ;; for_each rest body
  end.

(** ** Numbers, dates and intervals *)

(** The numbers a metrics report carries. *)
Inductive number : Type :=
| Int (z : Z)
| Float (q : Q).

Definition number_Q (n : number) : Q :=
  match n with
  | Int z => inject_Z z
  | Float q => q
  end.

Definition number_value (n : number) : value :=
  match n with
  | Int z => VInt z
  | Float q => VFloat q
  end.

(** The values Python orders as numbers ([bool] is a subclass of [int]). *)
Definition as_number (v : value) : option number :=
  match v with
  | VBool b => Some (Int (if b then 1 else 0))
  | VInt z => Some (Int z)
  | VFloat q => Some (Float q)
  | _ => None
  end.

(** [v >= threshold] for a number [v]: a threshold that is no number
    raises [TypeError]. *)
Definition number_ge (v : number) (threshold : value) : Outcome bool :=
  match as_number threshold with
  | Some t => Ret (Qle_bool (number_Q t) (number_Q v))
  | None => Raise TypeError
  end.

Definition US_PER_HOUR : Z := 3600000000.
Definition US_PER_DAY : Z := 86400000000.

(** [timedelta.min] and [timedelta.max], in microseconds. *)
Definition TIMEDELTA_MIN : Z := - (999999999 * US_PER_DAY).
Definition TIMEDELTA_MAX : Z := 1000000000 * US_PER_DAY - 1.

(** [datetime.max] (9999-12-31T23:59:59.999999); [datetime.min] is 0. *)
Definition DATETIME_MAX : Z := 3652059 * US_PER_DAY - 1.

(** Rounding to the nearest integer, ties to even. *)
Definition round_half_even (q : Q) : Z :=
  let f := Qfloor q in
  match Qcompare (q - inject_Z f) (1 # 2) with
  | Lt => f
  | Gt => f + 1
  | Eq => if Z.even f then f else f + 1
  end.

(** [timedelta(hours=h)] *)
Definition timedelta_hours (h : value) : Outcome Z :=
  match as_number h with
  | None => Raise TypeError
  | Some n =>
      let us := match n with
                | Int z => z * US_PER_HOUR
                | Float q => round_half_even (q * inject_Z US_PER_HOUR)
                end in
      if (TIMEDELTA_MIN <=? us) && (us <=? TIMEDELTA_MAX) then Ret us
      else Raise OverflowError
  end.

(** [d + delta] on a [datetime] *)
Definition datetime_add (d delta : Z) : Outcome Z :=
  let s := d + delta in
  if (0 <=? s) && (s <=? DATETIME_MAX) then Ret s else Raise OverflowError.

(** ** Trigger evaluation *)

(** [run_scheduled_automations], the interval test of the loop body
    (from [interval_hours = ...] to the [continue] of [now < next_run]):
    [Ret false] is that [continue]. *)
Definition is_scheduled_due (now : Z) (automation : Automation) : Outcome bool :=
  let interval_hours := dict_get_default (trigger_config automation) "interval_hours" (VInt 24) in
  match last_run automation with
  | Some lr =>
      match timedelta_hours interval_hours with
      | Ret delta =>
          match datetime_add lr delta with
          | Ret next_run => Ret (negb (now <? next_run))
          | Raise e => Raise e
          end
      | Raise e => Raise e
      end
  | None => Ret true
  end.

(** [handle_webhook], the second conjunct of the comprehension:
    [a.trigger_config.get("event") == event_type] with [event_type] a
    [str]; only an equal [str] compares equal. *)
Definition event_matches (automation : Automation) (event_type : string) : bool :=
  match dict_get (trigger_config automation) "event" with
  | Some (VStr s) => String.eqb s event_type
  | _ => false
  end.

Definition Metrics : Type := list (string * number).

(** The metrics report as the context handed to a handler. *)
Definition metrics_context (metrics : Metrics) : Dict :=
  map (fun kv => (fst kv, number_value (snd kv))) metrics.

(** [check_thresholds], the test
    [metric_name in metrics and metrics[metric_name] >= threshold]:
    membership of an unhashable value raises [TypeError], and no value but
    a [str] is a key of the report. *)
Definition threshold_condition (metric_name threshold : value) (metrics : Metrics) : Outcome bool :=
  match metric_name with
  | VStr m =>
      match dict_get metrics m with
      | Some v => number_ge v threshold
      | None => Ret false
      end
  | VList _ | VDict _ => Raise TypeError
  | _ => Ret false
  end.

(** [metrics[metric_name]], read where the test above held. *)
Definition metric_value (metric_name : value) (metrics : Metrics) : value :=
  match metric_name with
  | VStr m =>
      match dict_get metrics m with
      | Some v => number_value v
      | None => VNone
      end
  | _ => VNone
  end.


(** ** The engine *)

Definition error_result (msg : string) : value := VDict [("error", VStr msg)].

(** [self.automations.get(key)] *)
Definition lookup (key : string) : M (option Automation) :=
  fun st => (Ret (dict_get (automations st) key), st).

(** [register] *)
Definition register (automation : Automation) : M unit :=
  fun st =>
    (Ret tt,
     mkState (dict_set (automations st) (id automation) automation)
       (clock_reads st) (posts st) (trace st)).

(** [automation.last_run = t] on the object bound to [key] *)
Definition assign_last_run (key : string) (t : Z) : M unit :=
  fun st =>
    (Ret tt,
     mkState (dict_update (automations st) key (set_last_run t))
       (clock_reads st) (posts st) (trace st ++ [EvSetLastRun key t])).

(** [automation.run_count += 1] on the object bound to [key] *)
Definition bump_run_count (key : string) : M unit :=
  fun st =>
    let n := match dict_get (automations st) key with
             | Some a => run_count a + 1
             | None => 0
             end in
    (Ret tt,
     mkState (dict_update (automations st) key incr_run_count)
       (clock_reads st) (posts st) (trace st ++ [EvSetRunCount key n])).

(** The float literal [0.02], exactly. *)
Definition float_0_02 : Q := 5764607523034235 # 288230376151711744.

(** [_register_default_automations] *)
Definition _register_default_automations : M unit :=
  (* Level 1: discovery *)
  register (new_automation "discover_market_gaps" "Market Gap Discovery" DISCOVERY SCHEDULED
              [("interval_hours", VInt 24)] "discover_market_gaps" ["perplexity"; "gemini"]) ;;
  register (new_automation "competitor_monitoring" "Competitor Analysis" DISCOVERY SCHEDULED
              [("interval_hours", VInt 12)] "analyze_competitors" ["perplexity"; "claude"]) ;;
  register (new_automation "trend_detection" "Industry Trend Detection" DISCOVERY SCHEDULED
              [("interval_hours", VInt 6)] "detect_trends" ["perplexity"]) ;;
  (* Level 2: generation *)
  register (new_automation "template_generation" "Template Product Generator" GENERATION EVENT
              [("event", VStr "opportunity_discovered")] "generate_template_product"
              ["claude"; "codex"]) ;;
  register (new_automation "saas_feature_builder" "SaaS Feature Builder" GENERATION MANUAL
              [] "build_saas_feature" ["codex"; "claude"]) ;;
  register (new_automation "content_creator" "Educational Content Creator" GENERATION SCHEDULED
              [("interval_hours", VInt 48)] "create_content" ["claude"; "gemini"]) ;;
  (* Level 3: optimization *)
  register (new_automation "pricing_optimizer" "Dynamic Pricing Optimizer" OPTIMIZATION THRESHOLD
              [("metric", VStr "conversion_rate"); ("threshold", VFloat float_0_02)]
              "optimize_pricing" ["claude"]) ;;
  register (new_automation "copy_optimizer" "Marketing Copy Optimizer" OPTIMIZATION SCHEDULED
              [("interval_hours", VInt 72)] "optimize_copy" ["claude"; "gemini"]) ;;
  register (new_automation "feature_enhancer" "Product Feature Enhancer" OPTIMIZATION EVENT
              [("event", VStr "customer_feedback_received")] "enhance_features"
              ["claude"; "codex"]) ;;
  (* Level 4: scaling *)
  register (new_automation "market_expander" "New Market Expander" SCALING THRESHOLD
              [("metric", VStr "product_revenue"); ("threshold", VInt 1000)]
              "expand_to_new_markets" ["perplexity"; "claude"; "gemini"]) ;;
  register (new_automation "product_cloner" "Successful Product Cloner" SCALING THRESHOLD
              [("metric", VStr "product_sales"); ("threshold", VInt 100)]
              "clone_successful_product" ["claude"; "codex"]) ;;
  register (new_automation "affiliate_program_creator" "Affiliate Program Creator" SCALING MANUAL
              [] "create_affiliate_program" ["claude"]).

(** The engine as [AutomationEngine()] leaves it. *)
Definition engine_init : State :=
  snd (_register_default_automations (mkState [] 0 0 [])).

Section Engine.
Variable env : Env.

(** [datetime.now()] *)
Definition datetime_now : M Z :=
  fun st =>
    (Ret (now_at env (clock_reads st)),
     mkState (automations st) (S (clock_reads st)) (posts st) (trace st)).

(** [await self.http_client.post(url, headers=..., json=body)]; the
    headers are the same two constants at every call. *)
Definition post (url : string) (body : value) : M Response :=
  fun st =>
    (transport env (posts st) url body,
     mkState (automations st) (clock_reads st) (S (posts st))
       (trace st ++ [EvPost url body])).

Definition task (fields : Dict) : value := VDict [("task", VDict fields)].

(** *** Discovery actions *)

Definition _action_discover_market_gaps (automation : Automation) (context : Dict) : M value :=
  response <- post (BRAINOPS_API env ++ "/agents/MarketIntelligence/execute")
                (task [("action", VStr "discover_gaps");
                       ("industry", dict_get_default context "industry" (VStr "roofing"))]) ;;
  lift (json response).

Definition _action_analyze_competitors (automation : Automation) (context : Dict) : M value :=
  response <- post (BRAINOPS_API env ++ "/agents/CompetitiveIntelligence/execute")
                (task [("action", VStr "analyze_competitors")]) ;;
  lift (json response).

Definition _action_detect_trends (automation : Automation) (context : Dict) : M value :=
  response <- post (BRAINOPS_API env ++ "/agents/TrendAnalyzer/execute")
                (task [("action", VStr "detect_trends")]) ;;
  lift (json response).

(** *** Generation actions *)

Definition _action_generate_template (automation : Automation) (context : Dict) : M value :=
  response <- post (BRAINOPS_API env ++ "/agents/ProductGenerator/execute")
                (task [("action", VStr "generate_template");
                       ("type", dict_get_default context "type" (VStr "spreadsheet"));
                       ("industry", dict_get_default context "industry" (VStr "roofing"))]) ;;
  lift (json response).

Definition _action_build_saas_feature (automation : Automation) (context : Dict) : M value :=
  ret (VDict [("status", VStr "initiated");
              ("feature", dict_get_default context "feature_name" (VStr "New Feature"));
              ("message", VStr "SaaS feature build initiated via Codex")]).

Definition _action_create_content (automation : Automation) (context : Dict) : M value :=
  response <- post (BRAINOPS_API env ++ "/agents/ContentCreator/execute")
                (task [("action", VStr "create_content");
                       ("type", dict_get_default context "content_type" (VStr "blog_post"));
                       ("topic", dict_get_default context "topic" (VStr "AI in roofing"))]) ;;
  lift (json response).

(** *** Optimization actions *)

Definition _action_optimize_pricing (automation : Automation) (context : Dict) : M value :=
  response <- post (BRAINOPS_API env ++ "/agents/RevenueOptimizer/execute")
                (task [("action", VStr "optimize_pricing")]) ;;
  lift (json response).

Definition _action_optimize_copy (automation : Automation) (context : Dict) : M value :=
  ret (VDict [("status", VStr "initiated");
              ("message", VStr "Copy optimization initiated")]).

Definition _action_enhance_features (automation : Automation) (context : Dict) : M value :=
  ret (VDict [("status", VStr "initiated");
              ("message", VStr "Feature enhancement initiated")]).

(** *** Scaling actions *)

Definition _action_expand_markets (automation : Automation) (context : Dict) : M value :=
  ret (VDict [("status", VStr "initiated");
              ("target_markets",
               VList [VStr "commercial roofing"; VStr "solar installation";
                      VStr "siding contractors"]);
              ("message", VStr "Market expansion analysis initiated")]).

Definition _action_clone_product (automation : Automation) (context : Dict) : M value :=
  ret (VDict [("status", VStr "initiated");
              ("source_product", dict_get_default context "product_id" VNone);
              ("message", VStr "Product cloning initiated")]).

Definition _action_create_affiliate (automation : Automation) (context : Dict) : M value :=
  ret (VDict [("status", VStr "initiated");
              ("message", VStr "Affiliate program creation initiated")]).

(** *** Dispatch *)

Definition Handler : Type := Automation -> Dict -> M value.

(** The [action_handlers] table of [_run_action]. *)
Definition action_handlers : list (string * Handler) :=
  [ ("discover_market_gaps", _action_discover_market_gaps);
    ("analyze_competitors", _action_analyze_competitors);
    ("detect_trends", _action_detect_trends);
    ("generate_template_product", _action_generate_template);
    ("build_saas_feature", _action_build_saas_feature);
    ("create_content", _action_create_content);
    ("optimize_pricing", _action_optimize_pricing);
    ("optimize_copy", _action_optimize_copy);
    ("enhance_features", _action_enhance_features);
    ("expand_to_new_markets", _action_expand_markets);
    ("clone_successful_product", _action_clone_product);
    ("create_affiliate_program", _action_create_affiliate) ].

(** [_run_action]; the two [log] steps mark the call of the handler and
    its return. *)
Definition _run_action (automation : Automation) (context : Dict) : M value :=
  match dict_get action_handlers (action automation) with
  | Some handler =>
      log (EvHandlerCall (action automation)) ;;
      result <- handler automation context ;;
      log (EvHandlerReturn (action automation)) ;;
      ret result
  | None => ret (error_result ("Unknown action: " ++ action automation))
  end.

Definition store_url : string := BRAINOPS_API env ++ "/brain/store".

(** The JSON body [_store_result] sends; [key_time] and [stamp] are its
    two readings of the clock. *)
Definition store_record (automation : Automation) (result : value) (key_time stamp : Z)
    : value :=
  VDict [("key", VStr ("automation_" ++ id automation ++ "_" ++ strftime env key_time));
         ("value",
          VDict [("automation_id", VStr (id automation));
                 ("automation_name", VStr (name automation));
                 ("level", VInt (level_value (level automation)));
                 ("result", result);
                 ("timestamp", VStr (isoformat env stamp))]);
         ("category", VStr "automation_results");
         ("priority", VStr "normal")].

(** [_store_result]: it reads [id], [name] and [level] of the
    automation, which nothing assigns after construction. *)
Definition _store_result (automation : Automation) (result : value) : M unit :=
  try_except
    (key_time <- datetime_now ;;
     stamp <- datetime_now ;;
     _ <- post store_url (store_record automation result key_time stamp) ;;
     ret tt)
    (fun _ => ret tt).

(** [context or {}] *)
Definition or_empty (context : option Dict) : Dict :=
  match context with
  | Some d => d
  | None => []
  end.

(** [execute_automation] *)
Definition execute_automation (automation_id : string) (context : option Dict) : M value :=
  found <- lookup automation_id ;;
  match found with
  | None => ret (error_result ("Automation " ++ automation_id ++ " not found"))
  | Some automation =>
      if negb (enabled automation)
      then ret (error_result ("Automation " ++ automation_id ++ " is disabled"))
      else
        result <- _run_action automation (or_empty context) ;;
        now <- datetime_now ;;
        assign_last_run automation_id now ;;
        bump_run_count automation_id ;;
        _store_result automation result ;;
        ret result
  end.

(** *** The scheduler pass *)

(** One turn of the loop of [run_scheduled_automations], on the object
    bound to [key]. *)
Definition scheduled_turn (now : Z) (key : string) : M unit :=
  found <- lookup key ;;
  match found with
  | None => ret tt
  | Some automation =>
      if negb (trigger_eqb (trigger automation) SCHEDULED) then ret tt
      else if negb (enabled automation) then ret tt
      else
        due <- lift (is_scheduled_due now automation) ;;
        if due
        then (_ <- execute_automation (id automation) None ;; ret tt)
        else ret tt
  end.

(** [run_scheduled_automations]: the loop walks the live dictionary,
    whose set of keys no turn changes. *)
Definition run_scheduled_automations : M unit :=
  now <- datetime_now ;;
  keys <- (fun st => (Ret (dict_keys (automations st)), st)) ;;
  for_each keys (scheduled_turn now).

(** *** Event fan-out *)

Definition webhook_entry (automation : Automation) (result : value) : value :=
  VDict [("automation_id", VStr (id automation)); ("result", result)].

(** The [for] loop of [handle_webhook], with [results] as accumulator. *)
Fixpoint webhook_loop (event_automations : list Automation) (payload : Dict)
    (results : list value) : M (list value) :=
  match event_automations with
  | [] => ret results
  | automation :: rest =>
      result <- execute_automation (id automation) (Some payload) ;;
      webhook_loop rest payload (results ++ [webhook_entry automation result])
  end.

Definition select_event_automations (event_type : string)
    (registry : list (string * Automation)) : list Automation :=
  filter (fun a => trigger_eqb (trigger a) EVENT && event_matches a event_type)
    (dict_values registry).

Definition summary (results : list value) : value :=
  VDict [("triggered", VInt (Z.of_nat (length results))); ("results", VList results)].

(** [handle_webhook] *)
Definition handle_webhook (event_type : string) (payload : Dict) : M value :=
  event_automations <-
    (fun st => (Ret (select_event_automations event_type (automations st)), st)) ;;
  results <- webhook_loop event_automations payload [] ;;
  ret (summary results).

(** *** Threshold checks *)

Definition threshold_entry (automation : Automation) (metric_name v threshold result : value)
    : value :=
  VDict [("automation_id", VStr (id automation));
         ("metric", metric_name);
         ("value", v);
         ("threshold", threshold);
         ("result", result)].

(** The [for] loop of [check_thresholds], with [triggered] as
    accumulator. *)
Fixpoint threshold_loop (threshold_automations : list Automation) (metrics : Metrics)
    (triggered : list value) : M (list value) :=
  match threshold_automations with
  | [] => ret triggered
  | automation :: rest =>
      let metric_name := dict_get_default (trigger_config automation) "metric" VNone in
      let threshold := dict_get_default (trigger_config automation) "threshold" VNone in
      hit <- lift (threshold_condition metric_name threshold metrics) ;;
      if hit
      then
        result <- execute_automation (id automation) (Some (metrics_context metrics)) ;;
        threshold_loop rest metrics
          (triggered ++ [threshold_entry automation metric_name
                           (metric_value metric_name metrics) threshold result])
      else threshold_loop rest metrics triggered
  end.

Definition select_threshold_automations (registry : list (string * Automation))
    : list Automation :=
  filter (fun a => trigger_eqb (trigger a) THRESHOLD) (dict_values registry).

(** [check_thresholds] *)
Definition check_thresholds (metrics : Metrics) : M value :=
  threshold_automations <-
    (fun st => (Ret (select_threshold_automations (automations st)), st)) ;;
  triggered <- threshold_loop threshold_automations metrics [] ;;
  ret (summary triggered).
End Engine.

(** ** Listing and the loop *)

(** [AutomationLevel.name] *)
Definition level_name (l : AutomationLevel) : string :=
  match l with
  | DISCOVERY => "DISCOVERY"
  | GENERATION => "GENERATION"
  | OPTIMIZATION => "OPTIMIZATION"
  | SCALING => "SCALING"
  end.

(** [AutomationTrigger.value] *)
Definition trigger_value (t : AutomationTrigger) : string :=
  match t with
  | SCHEDULED => "scheduled"
  | EVENT => "event"
  | THRESHOLD => "threshold"
  | MANUAL => "manual"
  end.

(** The dictionary [list_automations] builds for one automation. *)
Definition listing_fields (env : Env) (a : Automation) : Dict :=
  [("id", VStr (id a));
   ("name", VStr (name a));
   ("level", VStr (level_name (level a)));
   ("trigger", VStr (trigger_value (trigger a)));
   ("enabled", VBool (enabled a));
   ("last_run", match last_run a with
                | Some t => VStr (isoformat env t)
                | None => VNone
                end);
   ("run_count", VInt (run_count a))].

(** [list_automations] *)
Definition list_automations (env : Env) : M (list value) :=
  fun st => (Ret (map (fun a => VDict (listing_fields env a)) (dict_values (automations st))),
             st).

(** [await asyncio.sleep(seconds)]: the time that passes shows in the
    later readings of the clock only. *)
Definition sleep (seconds : Z) : M unit := ret tt.

(** One turn of the [while] loop of [start_automation_loop]. *)
Definition automation_cycle (env : Env) : M unit :=
  try_except (run_scheduled_automations env) (fun _ => ret tt) ;;
  sleep 300.

(** [start_automation_loop] for as long as [self.running] stays set:
    [n] turns of the loop. *)
Fixpoint automation_cycles (env : Env) (n : nat) : M unit :=
  match n with
  | O => ret tt
  | S n' => automation_cycle env ;; automation_cycles env n'
  end.

(** ** A sample world and sample engines *)

(** A world whose clock advances by one second per reading and whose
    server answers every request with a small JSON object. *)
Definition sample_env : Env :=
  mkEnv "https://brainops-ai-agents.onrender.com"
    (fun n => 63900000000000000 + 1000000 * Z.of_nat n)
    (fun _ _ _ => Ret (mkResponse (Ret (VDict [("status", VStr "completed")]))))
    (fun _ => "20251104_120000")
    (fun _ => "2025-11-04T12:00:00").


(** [Automation(..., enabled=False)] registered over the default
    [template_generation]. *)
Definition engine_template_off : State :=
  snd (register
         (set_enabled false
            (new_automation "template_generation" "Template Product Generator" GENERATION
               EVENT [("event", VStr "opportunity_discovered")] "generate_template_product"
               ["claude"; "codex"]))
         engine_init).

(** An automation registered with an action the table does not have. *)
Definition weekly_digest : Automation :=
  new_automation "weekly_digest" "Weekly Digest" GENERATION MANUAL [] "send_digest" ["claude"].

Definition engine_with_digest : State := snd (register weekly_digest engine_init).

(** A scheduled automation registered without [interval_hours]. *)
Definition daily_report : Automation :=
  new_automation "daily_report" "Daily Report" OPTIMIZATION SCHEDULED [] "optimize_copy"
    ["claude"].

Definition engine_with_report : State := snd (register daily_report engine_init).

(** The same engine after one run of [daily_report]. *)
Definition engine_report_ran : State :=
  snd (execute_automation sample_env "daily_report" None engine_with_report).

(** A scheduled automation that has run once and whose interval is not
    a number, registered after the defaults. *)
Definition report_bad_interval : Automation :=
  mkAutomation "daily_report" "Daily Report" OPTIMIZATION SCHEDULED
    [("interval_hours", VStr "daily")] "optimize_copy" ["claude"] true
    (Some 63900000000000000) 1.

Definition engine_bad_interval : State := snd (register report_bad_interval engine_init).

(** ** The build pipeline of [pipeline.py]

    The script runs outside the engine, in a world of its own: the
    command line, the clock, the shell behind [subprocess.run] and the
    file system are oracles of [World]; a run is the list of what the
    script did to them, in order. [sys.exit] ends a run with a status and
    is no [Exception]: no [except] clause of the script catches it.
    [print] is not modelled. *)

Module Pipeline.

(** What [subprocess.run] returns. *)
Record Completed : Type := mkCompleted {
  returncode : Z;
  stdout : string;
  stderr : string
}.

Record World : Type := mkWorld {
  (** [sys.argv] *)
  argv : list string;
  (** the directory of the script *)
  PIPELINE_ROOT : string;
  (** [int(time.time())] *)
  time_seconds : Z;
  (** the n-th call of [subprocess.run]: command line and [cwd] *)
  subprocess_run : nat -> string -> option string -> Outcome Completed;
  (** [os.makedirs(path, exist_ok=True)] *)
  makedirs : string -> Outcome unit;
  (** [open(path, "w")] and [f.write(text)] *)
  write_text : string -> string -> Outcome unit;
  (** [str.strip()] *)
  strip : string -> string
}.

Inductive Step : Type :=
| MadeDir (path : string)
| Ran (command : string) (cwd : option string)
| Wrote (path text : string).

Record Run : Type := mkRun {
  commands : nat;
  steps : list Step
}.

Inductive Ending (A : Type) : Type :=
| Returned (a : A)
| Exited (code : Z)
| Raised (e : exn).
Arguments Returned {A} a.
Arguments Exited {A} code.
Arguments Raised {A} e.

Definition P (A : Type) : Type := Run -> Ending A * Run.

Definition ret {A : Type} (a : A) : P A := fun r => (Returned a, r).

Definition bind {A B : Type} (m : P A) (k : A -> P B) : P B :=
  fun r =>
    match m r with
    | (Returned a, r') => k a r'
    | (Exited code, r') => (Exited code, r')
    | (Raised e, r') => (Raised e, r')
    end.

(** [try: m except Exception as e: h e] *)
Definition try_except {A : Type} (m : P A) (h : exn -> P A) : P A :=
  fun r =>
    match m r with
    | (Raised e, r') => h e r'
    | other => other
    end.

(** [sys.exit(code)] *)
Definition sys_exit {A : Type} (code : Z) : P A := fun r => (Exited code, r).

Definition of_outcome {A : Type} (o : Outcome A) : Ending A :=
  match o with
  | Ret a => Returned a
  | Raise e => Raised e
  end.

Declare Scope pipeline_scope.
Notation "x <- m ;; k" := (bind m (fun x => k))
  (at level 100, m at next level, right associativity) : pipeline_scope.
Notation "m ;; k" := (bind m (fun _ => k))
  (at level 100, right associativity) : pipeline_scope.
Local Open Scope pipeline_scope.

(** The double quote the commands put around a prompt. *)
Definition quote : string := String (Ascii.ascii_of_nat 34) EmptyString.

(** [os.path.join(a, b)] on a POSIX system *)
Fixpoint ends_with_slash (s : string) : bool :=
  match s with
  | EmptyString => false
  | String c EmptyString => Ascii.eqb c "/"%char
  | String _ rest => ends_with_slash rest
  end.

Definition path_join (a b : string) : string :=
  if String.prefix "/" b then b
  else match a with
       | EmptyString => b
       | _ => if ends_with_slash a then a ++ b else a ++ "/" ++ b
       end.

Section Script.
Variable w : World.

Definition ARTIFACTS_DIR : string := path_join (PIPELINE_ROOT w) "artifacts".

Definition os_makedirs (path : string) : P unit :=
  fun r => (of_outcome (makedirs w path), mkRun (commands r) (steps r ++ [MadeDir path])).

(** [with open(path, "w") as f: f.write(text)] *)
Definition write_file (path text : string) : P unit :=
  fun r => (of_outcome (write_text w path text),
            mkRun (commands r) (steps r ++ [Wrote path text])).

(** [subprocess.run(command, shell=True, executable="/bin/bash",
    capture_output=True, text=True, cwd=cwd)] *)
Definition run_process (command : string) (cwd : option string) : P Completed :=
  fun r => (of_outcome (subprocess_run w (commands r) command cwd),
            mkRun (S (commands r)) (steps r ++ [Ran command cwd])).

(** [ensure_artifacts_dir] *)
Definition ensure_artifacts_dir (run_id : string) : P string :=
  let path := path_join ARTIFACTS_DIR run_id in
  os_makedirs path ;;
  ret path.

(** [run_step] *)
Definition run_step (step_name command : string) (cwd : option string) : P (option string) :=
  try_except
    (let full_command := "source ~/.bashrc && " ++ command in
     result <- run_process full_command cwd ;;
     if negb (returncode result =? 0) then ret None
     else ret (Some (strip w (stdout result))))
    (fun _ => ret None).

(** The command lines of the four steps. *)
Definition market_command (concept : string) : string :=
  let research_prompt :=
    "Analyze the market for '" ++ concept
    ++ "'. Identify 3 gaps, ideal pricing, and technical requirements. Output JSON." in
  "brain gemini -p " ++ quote ++ research_prompt ++ quote.

Definition spec_command (market_data : string) : string :=
  let spec_prompt :=
    "Based on this market data: " ++ market_data
    ++ ". Write a detailed PRD (Product Requirements Doc) and Technical Architecture for a MVP. Include stack details." in
  "brain claude " ++ quote ++ spec_prompt ++ quote.

Definition codex_command (concept : string) : string :=
  let scaffold_prompt :=
    "Scaffold a Next.js project for: " ++ concept ++ ". Use Tailwind, Supabase." in
  "brain codex exec " ++ quote ++ scaffold_prompt ++ quote.

Definition copy_command (concept : string) : string :=
  let copy_prompt := "Write a high-conversion landing page copy for " ++ concept ++ "." in
  "brain claude " ++ quote ++ copy_prompt ++ quote.

(** [x or default] on an optional text: [None] and the empty text are
    false. *)
Definition or_text (x : option string) (default : string) : string :=
  match x with
  | None | Some EmptyString => default
  | Some text => text
  end.

(** [main] *)
Definition main : P unit :=
  match argv w with
  | _ :: concept :: _ =>
      let run_id := "run_" ++ NilZero.string_of_int (Z.to_int (time_seconds w)) in
      work_dir <- ensure_artifacts_dir run_id ;;
      (* step 1: market research *)
      market_data <- run_step "Market Analysis" (market_command concept) None ;;
      match market_data with
      | None | Some EmptyString => sys_exit 1
      | Some market_data =>
          write_file (work_dir ++ "/1_market_data.json") market_data ;;
          (* step 2: specification *)
          spec_doc <- run_step "Spec Generation" (spec_command market_data) None ;;
          write_file (work_dir ++ "/2_product_spec.md")
            (or_text spec_doc "Error generating spec") ;;
          (* step 3: code generation *)
          (if existsb (String.eqb "--live") (argv w)
           then (_ <- run_step "Code Gen" (codex_command concept) (Some work_dir) ;; ret tt)
           else ret tt) ;;
          (* step 4: assets and copy *)
          copy_text <- run_step "Copywriting" (copy_command concept) None ;;
          write_file (work_dir ++ "/4_landing_page.md") (or_text copy_text EmptyString)
      end
  | _ => sys_exit 1
  end.
End Script.

(** What [run_step] makes of the n-th call of the shell. *)
Definition step_output (w : World) (n : nat) (command : string) (cwd : option string)
    : option string :=
  match subprocess_run w n ("source ~/.bashrc && " ++ command) cwd with
  | Ret result => if returncode result =? 0 then Some (strip w (stdout result)) else None
  | Raise _ => None
  end.

(** Where a run of [main] works. *)
Definition work_dir (w : World) : string :=
  path_join (ARTIFACTS_DIR w) ("run_" ++ NilZero.string_of_int (Z.to_int (time_seconds w))).

(** A world where every tool prints a line and returns 0, but for the
    one whose command line starts with [failing]. *)
Definition sample_world (args : list string) (failing : string) : World :=
  mkWorld ("pipeline.py" :: args) "/opt/pipeline" 1762257600
    (fun _ command _ =>
       if String.prefix ("source ~/.bashrc && " ++ failing) command
       then Ret (mkCompleted 127 EmptyString "brain: command not found")
       else Ret (mkCompleted 0 "done" EmptyString))
    (fun _ => Ret tt)
    (fun _ _ => Ret tt)
    (fun text => text).

End Pipeline.

(** A second listener to the event of [template_generation]. *)
Definition lead_mailer : Automation :=
  new_automation "lead_mailer" "Lead Mailer" SCALING EVENT
    [("event", VStr "opportunity_discovered")] "optimize_copy" ["claude"].

Definition engine_with_mailer : State := snd (register lead_mailer engine_init).

(** ** Vocabulary of the statements *)

(** A request of an action handler: a [post] to another url than the
    store's. *)
Definition agent_post (env : Env) (e : Event) : Prop :=
  exists url body, e = EvPost url body /\ url <> store_url env.

(** A handler leaves the registry and the clock alone, and all it adds to
    the trace are its own requests. *)
Definition quiet (env : Env) (h : Handler) : Prop :=
  forall a ctx st, exists evs,
    automations (snd (h a ctx st)) = automations st /\
    clock_reads (snd (h a ctx st)) = clock_reads st /\
    trace (snd (h a ctx st)) = (trace st ++ evs)%list /\
    Forall (agent_post env) evs.

(** The state [execute_automation] leaves once the action step has
    returned [result] in state [st1]: both statistics assigned, three
    readings of the clock, one request to the store. *)
Definition recorded (env : Env) (key : string) (automation : Automation) (result : value)
    (st1 : State) : State :=
  let t := now_at env (clock_reads st1) in
  let assigned := dict_update (automations st1) key (set_last_run t) in
  let n := match dict_get assigned key with
           | Some a => run_count a + 1
           | None => 0
           end in
  mkState (dict_update assigned key incr_run_count)
    (S (S (S (clock_reads st1))))
    (S (posts st1))
    (trace st1
     ++ [EvSetLastRun key t; EvSetRunCount key n;
         EvPost (store_url env)
           (store_record env automation result
              (now_at env (S (clock_reads st1))) (now_at env (S (S (clock_reads st1)))))]).

(** The same world with another server behind [http_client.post]. *)
Definition with_transport (env : Env) (t : nat -> string -> value -> Outcome Response) : Env :=
  mkEnv (BRAINOPS_API env) (now_at env) t (strftime env) (isoformat env).

(** The server of [env] with the store out of reach: every request to
    the store's url raises. *)
Definition store_down (env : Env) : nat -> string -> value -> Outcome Response :=
  fun n url body =>
    if String.eqb url (store_url env) then Raise (IOError "connection refused")
    else transport env n url body.

(** Two handlers that behave alike. *)
Definition same_handler (h h' : Handler) : Prop :=
  forall a ctx st, h' a ctx st = h a ctx st.

(** A handler that never raises. *)
Definition returns (h : Handler) : Prop :=
  forall a ctx st, exists r, fst (h a ctx st) = Ret r.

(** Every request is answered, with a body that decodes. *)
Definition reliable (env : Env) : Prop :=
  forall n url body, exists v, transport env n url body = Ret (mkResponse (Ret v)).



(** The configured metric name and threshold of a threshold automation,
    when it has them: a [str] and a number. *)
Definition metric_of (a : Automation) : option string :=
  match dict_get (trigger_config a) "metric" with
  | Some (VStr m) => Some m
  | _ => None
  end.

Definition threshold_of (a : Automation) : option number :=
  match dict_get (trigger_config a) "threshold" with
  | Some t => as_number t
  | None => None
  end.


(** The claim's condition: the report has the configured metric and the
    observed value is at least the configured threshold. *)
Definition observed_at_least (a : Automation) (metrics : Metrics) : bool :=
  match metric_of a, threshold_of a with
  | Some m, Some t =>
      match dict_get metrics m with
      | Some v => Qle_bool (number_Q t) (number_Q v)
      | None => false
      end
  | _, _ => false
  end.



Definition run_count_of (st : State) (key : string) : option Z :=
  option_map run_count (dict_get (automations st) key).

Definition last_run_of (st : State) (key : string) : option (option Z) :=
  option_map last_run (dict_get (automations st) key).

(** The entry of a listing that carries the given id, the first if
    there are several. *)
Fixpoint listed (entries : list value) (automation_id : string) : option Dict :=
  match entries with
  | [] => None
  | VDict d :: rest =>
      match dict_get d "id" with
      | Some (VStr s) => if String.eqb s automation_id then Some d else listed rest automation_id
      | _ => listed rest automation_id
      end
  | _ :: rest => listed rest automation_id
  end.

(** Whether a scheduler pass at [now] runs the automation: it is
    scheduled, enabled, and its interval test passes. *)
Definition runs_at (now : Z) (a : Automation) : bool :=
  trigger_eqb (trigger a) SCHEDULED && enabled a
  && match is_scheduled_due now a with
     | Ret due => due
     | Raise _ => false
     end.

(** The report says nothing about the automation: its metric name, if
    it has one, is a value that can be looked up and is not in the
    report. *)
Definition unreported (metrics : Metrics) (a : Automation) : Prop :=
  match dict_get_default (trigger_config a) "metric" VNone with
  | VStr m => dict_get metrics m = None
  | VList _ | VDict _ => False
  | _ => True
  end.

(** The clock never goes back. *)
Definition monotone_clock (env : Env) : Prop :=
  forall n m, (n <= m)%nat -> now_at env n <= now_at env m.

(** No automation has a [last_run] later than the next reading of the
    clock. *)
Definition not_ahead (env : Env) (st : State) : Prop :=
  forall key a t,
    dict_get (automations st) key = Some a -> last_run a = Some t ->
    t <= now_at env (clock_reads st).

(** The request to the store in a trace that ends with it. *)
Definition last_store_key (env : Env) (tr : list Event) : option value :=
  match last tr (EvHandlerCall EmptyString) with
  | EvPost url (VDict body) =>
      if String.eqb url (store_url env) then dict_get body "key" else None
  | _ => None
  end.

(** The actions whose handler answers on the spot, and those whose
    handler asks an agent of the service. *)
Definition offline_actions : list string :=
  ["build_saas_feature"; "optimize_copy"; "enhance_features"; "expand_to_new_markets";
   "clone_successful_product"; "create_affiliate_program"].

Definition agent_actions : list string :=
  ["discover_market_gaps"; "analyze_competitors"; "detect_trends";
   "generate_template_product"; "create_content"; "optimize_pricing"].

(** The n-th request fails with [e], whatever it is: either the call
    raises [e] or the body of the reply does not decode and [json()]
    raises [e]. *)
Definition request_fails (env : Env) (n : nat) (e : exn) : Prop :=
  forall url body,
    match transport env n url body with
    | Raise e' => e' = e
    | Ret response => json response = Raise e
    end.

(** ** Vocabulary of the registry invariants *)

(** A registry as [register] builds it: no key twice, and every key is
    the [id] of the automation bound to it. *)
Definition registry_ok (d : list (string * Automation)) : Prop :=
  NoDup (dict_keys d) /\ forall key a, In (key, a) d -> id a = key.

(** [a'] is [a] up to its two statistics. *)
Definition same_definition (a a' : Automation) : Prop :=
  id a' = id a /\ name a' = name a /\ level a' = level a /\ trigger a' = trigger a
  /\ trigger_config a' = trigger_config a /\ action a' = action a
  /\ ai_providers a' = ai_providers a /\ enabled a' = enabled a.

(** From [st] to [st'] the registry kept its keys, in their order, and
    under each key the same definition, with a [run_count] that did not
    go down. *)
Definition entry_grows (e e' : string * Automation) : Prop :=
  fst e' = fst e /\ same_definition (snd e) (snd e')
  /\ run_count (snd e) <= run_count (snd e').

Definition evolves (st st' : State) : Prop :=
  Forall2 entry_grows (automations st) (automations st').

(** ** Facts about dictionaries *)

Section DictionaryFacts.
Context {V : Type}.
Implicit Types (d : list (string * V)) (k : string) (f : V -> V).

Lemma dict_get_update_same d k f :
  dict_get (dict_update d k f) k = option_map f (dict_get d k).
Proof.
  induction d as [|[k' v] d IH]; simpl; [reflexivity|].
  destruct (String.eqb k' k) eqn:E; simpl; rewrite E; auto.
Qed.

Lemma dict_get_update_other d k k' f :
  k' <> k -> dict_get (dict_update d k f) k' = dict_get d k'.
Proof.
  intros Hne. induction d as [|[k0 v] d IH]; simpl; [reflexivity|].
  destruct (String.eqb k0 k) eqn:E; simpl.
  - apply String.eqb_eq in E. subst k0.
    destruct (String.eqb k k') eqn:E'; [|reflexivity].
    apply String.eqb_eq in E'. congruence.
  - destruct (String.eqb k0 k'); auto.
Qed.

Lemma dict_keys_update d k f : dict_keys (dict_update d k f) = dict_keys d.
Proof.
  induction d as [|[k' v] d IH]; simpl; [reflexivity|].
  destruct (String.eqb k' k); [reflexivity|].
  unfold dict_keys in *. simpl. now f_equal.
Qed.

Lemma dict_get_in d k v : dict_get d k = Some v -> In (k, v) d.
Proof.
  induction d as [|[k' v'] d IH]; simpl; [discriminate|].
  destruct (String.eqb k' k) eqn:E.
  - apply String.eqb_eq in E. intros [= ->]. subst. now left.
  - intros H. right. auto.
Qed.
End DictionaryFacts.

Lemma append_inj_l (s a b : string) : (s ++ a)%string = (s ++ b)%string -> a = b.
Proof. induction s as [|c s IH]; simpl; [auto|]. intros [= H]. auto. Qed.

(** ** The dispatcher rejects *)

Lemma execute_missing (env : Env) (st : State) (automation_id : string)
    (context : option Dict) :
  dict_get (automations st) automation_id = None ->
  execute_automation env automation_id context st
  = (Ret (error_result ("Automation " ++ automation_id ++ " not found")), st).
Proof.
  intros H. unfold execute_automation, bind, lookup. now rewrite H.
Qed.

Lemma execute_switched_off (env : Env) (st : State) (automation_id : string)
    (automation : Automation) (context : option Dict) :
  dict_get (automations st) automation_id = Some automation ->
  enabled automation = false ->
  execute_automation env automation_id context st
  = (Ret (error_result ("Automation " ++ automation_id ++ " is disabled")), st).
Proof.
  intros H Hoff. unfold execute_automation, bind, lookup. rewrite H. simpl.
  now rewrite Hoff.
Qed.

(** C7. For an id that is not a key of the registry, [execute_automation]
    returns the not-found error and the whole state -- every automation
    with its [last_run] and [run_count], the clock, the requests sent --
    is as before. *)
Theorem execute_unknown_id (env : Env) (st : State) (automation_id : string)
    (context : option Dict) :
  dict_get (automations st) automation_id = None ->
  execute_automation env automation_id context st
  = (Ret (error_result ("Automation " ++ automation_id ++ " not found")), st).
Proof. apply execute_missing. Qed.

Lemma execute_unknown_id_witness :
  execute_automation sample_env "weekly_digest" None engine_init
  = (Ret (error_result "Automation weekly_digest not found"), engine_init).
Proof. apply execute_unknown_id. reflexivity. Defined.

(** C6. For a registered automation with [enabled = False],
    [execute_automation] returns the disabled error and the whole state
    is as before: no handler was called (the trace has no new event), and
    the automation keeps its [last_run] and [run_count]. *)
Theorem execute_disabled (env : Env) (st : State) (automation_id : string)
    (automation : Automation) (context : option Dict) :
  dict_get (automations st) automation_id = Some automation ->
  enabled automation = false ->
  execute_automation env automation_id context st
  = (Ret (error_result ("Automation " ++ automation_id ++ " is disabled")), st).
Proof. apply execute_switched_off. Qed.

Lemma execute_disabled_witness :
  execute_automation sample_env "template_generation" None engine_template_off
  = (Ret (error_result "Automation template_generation is disabled"), engine_template_off).
Proof.
  eapply execute_disabled; [reflexivity | reflexivity].
Defined.

(** ** The dispatcher runs *)

Lemma store_result_effect (env : Env) (automation : Automation) (result : value) (st : State) :
  _store_result env automation result st
  = (Ret tt,
     mkState (automations st) (S (S (clock_reads st))) (S (posts st))
       (trace st
        ++ [EvPost (store_url env)
              (store_record env automation result
                 (now_at env (clock_reads st)) (now_at env (S (clock_reads st))))])).
Proof.
  unfold _store_result, try_except, bind, datetime_now, post, ret. simpl.
  destruct (transport env (posts st) _ _); reflexivity.
Qed.

Lemma execute_enabled (env : Env) (st : State) (automation_id : string)
    (automation : Automation) (context : option Dict) :
  dict_get (automations st) automation_id = Some automation ->
  enabled automation = true ->
  execute_automation env automation_id context st
  = match _run_action env automation (or_empty context) st with
    | (Ret result, st1) => (Ret result, recorded env automation_id automation result st1)
    | (Raise e, st1) => (Raise e, st1)
    end.
Proof.
  intros H Hon. unfold execute_automation, bind at 1. unfold lookup. rewrite H, Hon. simpl.
  unfold bind at 1. destruct (_run_action env automation (or_empty context) st) as [[r|e] st1];
    [|reflexivity].
  unfold bind, datetime_now, assign_last_run, bump_run_count, ret. simpl.
  rewrite store_result_effect. simpl. unfold recorded. simpl.
  rewrite <- !app_assoc. reflexivity.
Qed.

(** *** What a handler can do *)

Lemma agent_url_not_store (env : Env) (path : string) :
  path <> "/brain/store" -> (BRAINOPS_API env ++ path)%string <> store_url env.
Proof. intros Hne Heq. apply Hne. unfold store_url in Heq. eapply append_inj_l, Heq. Qed.

Lemma static_quiet (env : Env) (h : Handler) :
  (forall a ctx st, snd (h a ctx st) = st) -> quiet env h.
Proof.
  intros H a ctx st. exists []. rewrite H, app_nil_r. repeat split. constructor.
Qed.

Lemma request_quiet (env : Env) (h : Handler) (path : string) (body : Dict -> value) :
  path <> "/brain/store" ->
  (forall a ctx,
      h a ctx = (response <- post env (BRAINOPS_API env ++ path) (body ctx) ;;
                 lift (json response))) ->
  quiet env h.
Proof.
  intros Hpath H a ctx st. exists [EvPost (BRAINOPS_API env ++ path) (body ctx)].
  rewrite H. unfold bind, post, lift.
  destruct (transport env (posts st) _ _); simpl; repeat split;
    constructor; try constructor; eexists _, _; split; try reflexivity;
    now apply agent_url_not_store.
Qed.

Lemma handlers_quiet (env : Env) :
  Forall (fun entry => quiet env (snd entry)) (action_handlers env).
Proof.
  unfold action_handlers.
  repeat (apply Forall_cons; [simpl|]); try apply Forall_nil;
    first [ now apply static_quiet
          | eapply request_quiet with (body := fun ctx => _);
            [| intros a ctx; reflexivity]; discriminate ].
Qed.

Lemma handler_quiet (env : Env) (key : string) (h : Handler) :
  dict_get (action_handlers env) key = Some h -> quiet env h.
Proof.
  intros H. apply dict_get_in in H.
  pose proof (handlers_quiet env) as Q. rewrite Forall_forall in Q. exact (Q _ H).
Qed.

(** *** The action step *)

Lemma run_action_unknown (env : Env) (automation : Automation) (context : Dict) (st : State) :
  dict_get (action_handlers env) (action automation) = None ->
  _run_action env automation context st
  = (Ret (error_result ("Unknown action: " ++ action automation)), st).
Proof. intros H. unfold _run_action. now rewrite H. Qed.

Lemma run_action_known (env : Env) (automation : Automation) (context : Dict) (st : State)
    (h : Handler) :
  dict_get (action_handlers env) (action automation) = Some h ->
  _run_action env automation context st
  = match h automation context (snd (log (EvHandlerCall (action automation)) st)) with
    | (Ret result, st1) => (Ret result, snd (log (EvHandlerReturn (action automation)) st1))
    | (Raise e, st1) => (Raise e, st1)
    end.
Proof.
  intros H. unfold _run_action. rewrite H. unfold bind at 1. simpl. unfold bind at 1.
  destruct (h automation context _) as [[r|e] st1]; reflexivity.
Qed.

(** The action step never touches the registry or the clock. *)
Lemma run_action_frame (env : Env) (automation : Automation) (context : Dict) (st : State) :
  automations (snd (_run_action env automation context st)) = automations st
  /\ clock_reads (snd (_run_action env automation context st)) = clock_reads st.
Proof.
  destruct (dict_get (action_handlers env) (action automation)) as [h|] eqn:E.
  - rewrite (run_action_known _ _ _ _ _ E).
    destruct (handler_quiet _ _ _ E automation context
                (snd (log (EvHandlerCall (action automation)) st)))
      as (evs & Ha & Hc & _ & _).
    destruct (h automation context _) as [[r|e] st1]; simpl in *; auto.
  - rewrite (run_action_unknown _ _ _ _ E). auto.
Qed.


Lemma recorded_lookup (env : Env) (key : string) (automation a : Automation) (result : value)
    (st1 : State) :
  dict_get (automations st1) key = Some a ->
  dict_get (automations (recorded env key automation result st1)) key
  = Some (incr_run_count (set_last_run (now_at env (clock_reads st1)) a)).
Proof.
  intros H. unfold recorded. simpl. now rewrite !dict_get_update_same, H.
Qed.

Lemma recorded_others (env : Env) (key key' : string) (automation : Automation)
    (result : value) (st1 : State) :
  key' <> key ->
  dict_get (automations (recorded env key automation result st1)) key'
  = dict_get (automations st1) key'.
Proof.
  intros H. unfold recorded. simpl. now rewrite !dict_get_update_other.
Qed.

(** *** An action without a handler *)




(** *** The run counter *)

(** C3, as the code has it. One call of [execute_automation] leaves the
    [run_count] of every other automation alone; that of the automation
    named grows by one when the call passed the id and enabled checks and
    the action step returned a result -- the result of a handler, success
    or reported error, or the unknown-action error of [_run_action] -- and
    stays when the id is unknown, when the automation is disabled, and
    when the handler raised. *)
Theorem run_count_after_execute (env : Env) (st : State) (automation_id : string)
    (context : option Dict) :
  let out := execute_automation env automation_id context st in
  (forall key, key <> automation_id -> run_count_of (snd out) key = run_count_of st key)
  /\ match dict_get (automations st) automation_id with
     | None => run_count_of (snd out) automation_id = None
     | Some automation =>
         if enabled automation then
           match fst (_run_action env automation (or_empty context) st) with
           | Ret result =>
               fst out = Ret result
               /\ run_count_of (snd out) automation_id = Some (run_count automation + 1)
           | Raise e =>
               fst out = Raise e
               /\ run_count_of (snd out) automation_id = Some (run_count automation)
           end
         else run_count_of (snd out) automation_id = Some (run_count automation)
     end.
Proof.
  intros out. subst out. unfold run_count_of.
  destruct (dict_get (automations st) automation_id) as [a|] eqn:H.
  - destruct (enabled a) eqn:Hon.
    + rewrite (execute_enabled _ _ _ _ _ H Hon).
      pose proof (run_action_frame env a (or_empty context) st) as [Hreg _].
      destruct (_run_action env a (or_empty context) st) as [[r|e] st1]; cbn [fst snd] in *.
      * split.
        -- intros key Hkey. now rewrite recorded_others, Hreg.
        -- split; [reflexivity|]. rewrite <- Hreg in H.
           now rewrite (recorded_lookup _ _ _ _ _ _ H).
      * rewrite Hreg. split; [auto|]. now rewrite H.
    + rewrite (execute_switched_off _ _ _ _ _ H Hon). simpl. rewrite H. auto.
  - rewrite (execute_missing _ _ _ _ H). simpl. rewrite H. auto.
Qed.

(** C3, as the claim has it, fails for the unknown action: the dispatch
    of [weekly_digest] is turned down with the unknown-action error, and
    its [run_count] went from 0 to 1. *)
Lemma unknown_action_is_counted :
  let st := engine_with_digest in
  let out := execute_automation sample_env "weekly_digest" None st in
  dict_get (action_handlers sample_env) "send_digest" = None
  /\ option_map action (dict_get (automations st) "weekly_digest") = Some "send_digest"
  /\ fst out = Ret (error_result "Unknown action: send_digest")
  /\ run_count_of st "weekly_digest" = Some 0
  /\ run_count_of (snd out) "weekly_digest" = Some (0 + 1)
  /\ run_count_of (snd out) "weekly_digest" <> Some (0 + 0).
Proof.
  vm_compute. repeat split; discriminate.
Qed.

(** *** Order of the steps *)



(** *** The store cannot be seen *)

Section StoreOutcome.
Variable env : Env.
Variable t' : nat -> string -> value -> Outcome Response.
Hypothesis same_elsewhere :
  forall n url body, url <> store_url env -> t' n url body = transport env n url body.

Let env' : Env := with_transport env t'.

Lemma request_same (h h' : Handler) (path : string) (body : Dict -> value) :
  path <> "/brain/store" ->
  (forall a ctx,
      h a ctx = (response <- post env (BRAINOPS_API env ++ path) (body ctx) ;;
                 lift (json response))) ->
  (forall a ctx,
      h' a ctx = (response <- post env' (BRAINOPS_API env ++ path) (body ctx) ;;
                  lift (json response))) ->
  same_handler h h'.
Proof.
  intros Hpath H H' a ctx st. rewrite H, H'. unfold bind, post. cbn [transport env' with_transport].
  rewrite same_elsewhere; [reflexivity|]. now apply agent_url_not_store.
Qed.

Lemma handlers_same :
  Forall2 (fun entry entry' => fst entry = fst entry' /\ same_handler (snd entry) (snd entry'))
    (action_handlers env) (action_handlers env').
Proof.
  unfold action_handlers.
  repeat (apply Forall2_cons; [split; [reflexivity|]; cbn [snd]|]); try apply Forall2_nil;
    first [ now intros a ctx st
          | eapply request_same with (body := fun ctx => _);
            [| intros a ctx; reflexivity | intros a ctx; reflexivity]; discriminate ].
Qed.

Lemma dict_get_same (d d' : list (string * Handler)) (key : string) :
  Forall2 (fun entry entry' => fst entry = fst entry' /\ same_handler (snd entry) (snd entry'))
    d d' ->
  match dict_get d key, dict_get d' key with
  | Some h, Some h' => same_handler h h'
  | None, None => True
  | _, _ => False
  end.
Proof.
  induction 1 as [|[k h] [k' h'] d d' [Hk Hh] _ IH]; simpl; [exact I|].
  simpl in Hk. subst k'. destruct (String.eqb k key); [exact Hh | exact IH].
Qed.

Lemma run_action_same (automation : Automation) (context : Dict) (st : State) :
  _run_action env' automation context st = _run_action env automation context st.
Proof.
  pose proof (dict_get_same _ _ (action automation) handlers_same) as Hsame.
  destruct (dict_get (action_handlers env) (action automation)) as [h|] eqn:E;
    destruct (dict_get (action_handlers env') (action automation)) as [h'|] eqn:E';
    try contradiction.
  - rewrite (run_action_known _ _ _ _ _ E), (run_action_known _ _ _ _ _ E'), Hsame.
    reflexivity.
  - now rewrite (run_action_unknown _ _ _ _ E), (run_action_unknown _ _ _ _ E').
Qed.

Lemma execute_same (automation_id : string) (context : option Dict) (st : State) :
  execute_automation env' automation_id context st
  = execute_automation env automation_id context st.
Proof.
  destruct (dict_get (automations st) automation_id) as [a|] eqn:H.
  - destruct (enabled a) eqn:Hon.
    + rewrite !(execute_enabled _ _ _ _ _ H Hon), run_action_same. reflexivity.
    + now rewrite !(execute_switched_off _ _ _ _ _ H Hon).
  - now rewrite !(execute_missing _ _ _ _ H).
Qed.
End StoreOutcome.

(** C8. Let two worlds differ only in what the server does with the
    requests sent to the store's url (it may accept them, or fail in any
    way). Every call of [execute_automation] returns the same outcome in
    both, and leaves the same state: what happens to the store request
    never reaches the caller. *)
Theorem store_outcome_is_invisible (env : Env)
    (t' : nat -> string -> value -> Outcome Response)
    (automation_id : string) (context : option Dict) (st : State) :
  (forall n url body, url <> store_url env -> t' n url body = transport env n url body) ->
  execute_automation (with_transport env t') automation_id context st
  = execute_automation env automation_id context st.
Proof. intros H. now apply execute_same. Qed.

Lemma store_outcome_is_invisible_witness :
  execute_automation (with_transport sample_env (store_down sample_env))
    "trend_detection" None engine_init
  = execute_automation sample_env "trend_detection" None engine_init.
Proof.
  apply store_outcome_is_invisible. intros n url body Hne. unfold store_down.
  destruct (String.eqb_spec url (store_url sample_env)); [contradiction | reflexivity].
Defined.

(** ** Scheduled automations *)

Lemma due_without_last_run (now : Z) (automation : Automation) :
  last_run automation = None -> is_scheduled_due now automation = Ret true.
Proof. intros H. unfold is_scheduled_due. now rewrite H. Qed.

Lemma due_after_last_run (now lr delta : Z) (h : value) (automation : Automation) :
  last_run automation = Some lr ->
  dict_get_default (trigger_config automation) "interval_hours" (VInt 24) = h ->
  timedelta_hours h = Ret delta ->
  0 <= lr + delta <= DATETIME_MAX ->
  is_scheduled_due now automation = Ret (lr + delta <=? now).
Proof.
  intros Hlr Hh Hd Hrange. unfold is_scheduled_due. rewrite Hlr, Hh, Hd.
  unfold datetime_add.
  replace ((0 <=? lr + delta) && (lr + delta <=? DATETIME_MAX)) with true
    by (symmetry; apply andb_true_iff; split; apply Z.leb_le; lia).
  now rewrite Z.leb_antisym.
Qed.

(** C4. Take an automation with [interval_hours = h], and let [delta] be
    [timedelta(hours=h)]. With no [last_run] the interval test of the
    scheduler passes at every [now]. After an execution, [last_run] is the
    time [t0] the dispatcher read, and (for [t0 + delta] a date the
    calendar has) the test fails at every [now < t0 + delta] and passes at
    every [now >= t0 + delta]. The test is the one the scheduler applies
    to the enabled scheduled automations. *)
Theorem scheduled_due_window (env : Env) (st : State) (automation_id : string)
    (automation : Automation) (context : option Dict) (h : value) (delta : Z)
    (result : value) :
  dict_get (trigger_config automation) "interval_hours" = Some h ->
  timedelta_hours h = Ret delta ->
  (last_run automation = None -> forall now, is_scheduled_due now automation = Ret true)
  /\ (dict_get (automations st) automation_id = Some automation ->
      enabled automation = true ->
      fst (_run_action env automation (or_empty context) st) = Ret result ->
      let t0 := now_at env (clock_reads st) in
      exists st' automation',
        execute_automation env automation_id context st = (Ret result, st')
        /\ dict_get (automations st') automation_id = Some automation'
        /\ last_run automation' = Some t0
        /\ (0 <= t0 + delta <= DATETIME_MAX ->
            forall now,
              (now < t0 + delta -> is_scheduled_due now automation' = Ret false)
              /\ (t0 + delta <= now -> is_scheduled_due now automation' = Ret true))).
Proof.
  intros Hh Hd. split.
  - intros Hnone now. now apply due_without_last_run.
  - intros H Hon Hret t0.
    rewrite (execute_enabled _ _ _ _ _ H Hon).
    pose proof (run_action_frame env automation (or_empty context) st) as [Hreg Hclk].
    destruct (_run_action env automation (or_empty context) st) as [[r|e] st1];
      cbn [fst snd] in *; [|discriminate].
    injection Hret as ->. rewrite <- Hreg in H.
    eexists _, _. split; [reflexivity|]. split; [exact (recorded_lookup _ _ _ _ _ _ H)|].
    rewrite Hclk. split; [reflexivity|].
    intros Hrange now.
    assert (Hdue : is_scheduled_due now
                     (incr_run_count (set_last_run t0 automation))
                   = Ret (t0 + delta <=? now)).
    { apply due_after_last_run with (h := h); auto.
      unfold dict_get_default. cbn [trigger_config incr_run_count set_last_run].
      now rewrite Hh. }
    subst t0. rewrite Hdue. split; intros Hnow; f_equal.
    + apply Z.leb_gt. lia.
    + apply Z.leb_le. lia.
Qed.

Lemma scheduled_due_window_witness :
  (forall now,
      is_scheduled_due now
        (new_automation "trend_detection" "Industry Trend Detection" DISCOVERY SCHEDULED
           [("interval_hours", VInt 6)] "detect_trends" ["perplexity"])
      = Ret true)
  /\ exists st' automation',
       execute_automation sample_env "trend_detection" None engine_init
       = (Ret (VDict [("status", VStr "completed")]), st')
       /\ dict_get (automations st') "trend_detection" = Some automation'
       /\ last_run automation' = Some 63900000000000000
       /\ forall now,
            (now < 63900000000000000 + 21600000000 ->
             is_scheduled_due now automation' = Ret false)
            /\ (63900000000000000 + 21600000000 <= now ->
                is_scheduled_due now automation' = Ret true).
Proof.
  destruct (scheduled_due_window sample_env engine_init "trend_detection"
              (new_automation "trend_detection" "Industry Trend Detection" DISCOVERY SCHEDULED
                 [("interval_hours", VInt 6)] "detect_trends" ["perplexity"])
              None (VInt 6) 21600000000 (VDict [("status", VStr "completed")])
              eq_refl eq_refl) as [Hfresh Hafter].
  split; [exact (Hfresh eq_refl)|].
  destruct (Hafter eq_refl eq_refl eq_refl) as (st' & a' & Hrun & Hget & Hlast & Hwin).
  exists st', a'. split; [exact Hrun|]. split; [exact Hget|]. split; [exact Hlast|].
  apply Hwin. split; apply Z.leb_le; reflexivity.
Defined.



(** ** Fan-out *)

Lemma sample_env_reliable : reliable sample_env.
Proof. intros n url body. eexists. reflexivity. Qed.

Section Reliable.
Variable env : Env.
Hypothesis answers : reliable env.

Lemma request_returns (h : Handler) (url : Dict -> string) (body : Dict -> value) :
  (forall a ctx,
      h a ctx = (response <- post env (url ctx) (body ctx) ;; lift (json response))) ->
  returns h.
Proof.
  intros H a ctx st. rewrite H. unfold bind, post.
  destruct (answers (posts st) (url ctx) (body ctx)) as [v ->]. now exists v.
Qed.

Lemma handlers_return :
  Forall (fun entry => returns (snd entry)) (action_handlers env).
Proof.
  unfold action_handlers.
  repeat (apply Forall_cons; [cbn [snd]|]); try apply Forall_nil;
    first [ intros a ctx st; eexists; reflexivity
          | eapply request_returns with (url := fun ctx => _) (body := fun ctx => _);
            intros a ctx; reflexivity ].
Qed.

Lemma run_action_returns (automation : Automation) (context : Dict) (st : State) :
  exists r, fst (_run_action env automation context st) = Ret r.
Proof.
  destruct (dict_get (action_handlers env) (action automation)) as [h|] eqn:E.
  - rewrite (run_action_known _ _ _ _ _ E).
    pose proof handlers_return as R. rewrite Forall_forall in R.
    destruct (R _ (dict_get_in _ _ _ E) automation context
                (snd (log (EvHandlerCall (action automation)) st))) as [r Hr].
    cbn [snd] in Hr. destruct (h automation context _) as [[r'|e] st1]; cbn [fst] in *;
      [now exists r' | discriminate].
  - rewrite (run_action_unknown _ _ _ _ E). eexists. reflexivity.
Qed.


End Reliable.







(** ** Threshold checks *)







(** ** Sample runs *)

(** The scenarios of the threshold checker: a conversion rate above the
    threshold triggers the pricing optimizer, one below does not, and one
    equal to it does. *)
Example conversion_rate_above :
  option_map (fun r => dict_get_default
                         match r with VDict d => d | _ => [] end "triggered" VNone)
    (match fst (check_thresholds sample_env [("conversion_rate", Float (5 # 100))]
                  engine_init) with
     | Ret r => Some r
     | Raise _ => None
     end)
  = Some (VInt 1).
Proof. vm_compute. reflexivity. Qed.

Example conversion_rate_below :
  fst (check_thresholds sample_env [("conversion_rate", Float (1 # 100))] engine_init)
  = Ret (VDict [("triggered", VInt 0); ("results", VList [])]).
Proof. vm_compute. reflexivity. Qed.

Example conversion_rate_equal :
  map id
    (filter (fun a => observed_at_least a [("conversion_rate", Float float_0_02)])
       (select_threshold_automations (automations engine_init)))
  = ["pricing_optimizer"].
Proof. vm_compute. reflexivity. Qed.

(** The scenario of the event fan-out on the default registry. *)
Example webhook_opportunity :
  fst (handle_webhook sample_env "opportunity_discovered" [] engine_init)
  = Ret (VDict [("triggered", VInt 1);
                ("results",
                 VList [VDict [("automation_id", VStr "template_generation");
                               ("result", VDict [("status", VStr "completed")])]])]).
Proof. vm_compute. reflexivity. Qed.

Example webhook_other :
  fst (handle_webhook sample_env "other" [] engine_init)
  = Ret (VDict [("triggered", VInt 0); ("results", VList [])]).
Proof. vm_compute. reflexivity. Qed.

(** A handler that raises ends the call without a record of the run. *)
Example handler_raises :
  let env := with_transport sample_env (fun _ _ _ => Raise (IOError "timeout")) in
  let out := execute_automation env "trend_detection" None engine_init in
  fst out = Raise (IOError "timeout")
  /\ run_count_of (snd out) "trend_detection" = Some 0
  /\ last_run_of (snd out) "trend_detection" = Some None.
Proof. vm_compute. repeat split. Qed.

(** Intervals: six hours, half an hour, and a value that is no number. *)
Example timedelta_samples :
  timedelta_hours (VInt 6) = Ret 21600000000
  /\ timedelta_hours (VFloat (1 # 2)) = Ret 1800000000
  /\ timedelta_hours (VStr "6") = Raise TypeError.
Proof. vm_compute. repeat split. Qed.


(** ** The registry *)

Section RegistryFacts.
Context {V : Type}.
Implicit Types (d : list (string * V)) (k : string) (v : V).

Lemma dict_get_set_same d k v : dict_get (dict_set d k v) k = Some v.
Proof.
  induction d as [|[k' v'] d IH]; simpl.
  - now rewrite String.eqb_refl.
  - destruct (String.eqb k' k) eqn:E; simpl; now rewrite E.
Qed.

Lemma dict_get_set_other d k k' v :
  k' <> k -> dict_get (dict_set d k v) k' = dict_get d k'.
Proof.
  intros Hne. induction d as [|[k0 v0] d IH]; simpl.
  - destruct (String.eqb k k') eqn:E; [|reflexivity].
    apply String.eqb_eq in E. congruence.
  - destruct (String.eqb k0 k) eqn:E; simpl.
    + apply String.eqb_eq in E. subst k0.
      destruct (String.eqb k k') eqn:E'; [|reflexivity].
      apply String.eqb_eq in E'. congruence.
    + destruct (String.eqb k0 k'); auto.
Qed.

Lemma dict_keys_set d k v :
  dict_keys (dict_set d k v)
  = match dict_get d k with
    | Some _ => dict_keys d
    | None => (dict_keys d ++ [k])%list
    end.
Proof.
  unfold dict_keys. induction d as [|[k' v'] d IH]; simpl; [reflexivity|].
  destruct (String.eqb k' k) eqn:E; simpl; [reflexivity|].
  rewrite IH. now destruct (dict_get d k).
Qed.

Lemma dict_get_none_keys d k : dict_get d k = None <-> ~ In k (dict_keys d).
Proof.
  unfold dict_keys. induction d as [|[k' v'] d IH]; simpl; [tauto|].
  destruct (String.eqb k' k) eqn:E.
  - apply String.eqb_eq in E. subst. split; [discriminate | tauto].
  - apply String.eqb_neq in E. rewrite IH. tauto.
Qed.

Lemma dict_set_in d k v k0 v0 :
  In (k0, v0) (dict_set d k v) -> (k0 = k /\ v0 = v) \/ In (k0, v0) d.
Proof.
  induction d as [|[k' v'] d IH]; simpl.
  - intros [[= <- <-]|[]]. now left.
  - destruct (String.eqb k' k) eqn:E; simpl.
    + apply String.eqb_eq in E. subst k'. intros [[= <- <-]|H]; auto.
    + intros [H|H]; auto. destruct (IH H); auto.
Qed.

Lemma in_dict_get d k v : NoDup (dict_keys d) -> In (k, v) d -> dict_get d k = Some v.
Proof.
  unfold dict_keys. induction d as [|[k' v'] d IH]; simpl; [tauto|].
  intros Hnd [[= -> ->]|H].
  - now rewrite String.eqb_refl.
  - inversion Hnd as [|? ? Hnotin Hnd']; subst.
    destruct (String.eqb k' k) eqn:E; [|auto].
    apply String.eqb_eq in E. subst k'. exfalso. apply Hnotin.
    change k with (fst (k, v)). now apply in_map.
Qed.
End RegistryFacts.

Lemma register_keeps_ok (automation : Automation) (st : State) :
  registry_ok (automations st) ->
  registry_ok (automations (snd (register automation st))).
Proof.
  intros [Hnd Hid]. unfold register. cbn [snd automations]. split.
  - rewrite dict_keys_set.
    destruct (dict_get (automations st) (id automation)) eqn:E; [assumption|].
    apply NoDup_app; [assumption | repeat constructor; intros [] | ].
    intros k Hk [<-|[]]. now apply dict_get_none_keys in E.
  - intros key a Hin. apply dict_set_in in Hin as [[-> ->]|Hin]; auto.
Qed.

(** X1. [register] binds the automation to its [id]: a lookup of that id
    gives back the very object registered, statistics included, whatever
    was bound before; every other binding is as it was; an id already
    present keeps its place in the iteration order and a new one goes to
    the end; nothing else of the state changes. *)
Theorem register_then_lookup (automation : Automation) (st : State) :
  let st' := snd (register automation st) in
  dict_get (automations st') (id automation) = Some automation
  /\ (forall key, key <> id automation ->
        dict_get (automations st') key = dict_get (automations st) key)
  /\ dict_keys (automations st')
     = match dict_get (automations st) (id automation) with
       | Some _ => dict_keys (automations st)
       | None => (dict_keys (automations st) ++ [id automation])%list
       end
  /\ clock_reads st' = clock_reads st /\ posts st' = posts st /\ trace st' = trace st.
Proof.
  cbn [register snd automations clock_reads posts trace]. split.
  - apply dict_get_set_same.
  - split; [intros key Hne; now apply dict_get_set_other|].
    split; [apply dict_keys_set | auto].
Qed.

Lemma for_each_register_ok (l : list Automation) (st : State) :
  registry_ok (automations st) ->
  fst (for_each l register st) = Ret tt
  /\ registry_ok (automations (snd (for_each l register st))).
Proof.
  revert st. induction l as [|a l IH]; intros st Hok; simpl; [auto|].
  unfold bind. cbn [register]. apply IH. now apply (register_keeps_ok a st).
Qed.

Lemma empty_registry_ok : registry_ok (automations (mkState [] 0 0 [])).
Proof. split; [constructor | intros key a []]. Qed.

Lemma engine_init_ok : registry_ok (automations engine_init).
Proof.
  replace (automations engine_init)
    with (automations (snd (for_each (map snd (automations engine_init)) register
                              (mkState [] 0 0 []))))
    by (vm_compute; reflexivity).
  apply for_each_register_ok, empty_registry_ok.
Qed.

(** X2. Whatever automations are registered, in whatever order and with
    whatever repetitions of ids, the registry keeps its shape: no key
    twice, and every key the id of its automation. *)
Theorem registered_registry_ok (l : list Automation) (st : State) :
  registry_ok (automations st) ->
  fst (for_each l register st) = Ret tt
  /\ registry_ok (automations (snd (for_each l register st))).
Proof. apply for_each_register_ok. Qed.

Lemma registered_registry_ok_witness :
  fst (for_each [weekly_digest; daily_report; weekly_digest] register engine_init) = Ret tt
  /\ registry_ok
       (automations
          (snd (for_each [weekly_digest; daily_report; weekly_digest] register engine_init))).
Proof. apply registered_registry_ok. exact engine_init_ok. Defined.

(** *** What a run can change *)

Lemma same_definition_refl (a : Automation) : same_definition a a.
Proof. unfold same_definition. tauto. Qed.

Lemma same_definition_trans (a b c : Automation) :
  same_definition a b -> same_definition b c -> same_definition a c.
Proof. unfold same_definition. intuition congruence. Qed.

Lemma entry_grows_refl (e : string * Automation) : entry_grows e e.
Proof. unfold entry_grows. split; [reflexivity|]. split; [apply same_definition_refl|lia]. Qed.

Lemma grows_refl (d : list (string * Automation)) : Forall2 entry_grows d d.
Proof. induction d; constructor; auto using entry_grows_refl. Qed.

Lemma grows_trans (d1 d2 d3 : list (string * Automation)) :
  Forall2 entry_grows d1 d2 -> Forall2 entry_grows d2 d3 -> Forall2 entry_grows d1 d3.
Proof.
  intros H. revert d3. induction H as [|e1 e2 d1 d2 (Hk & Hd & Hc) _ IH]; intros d3 H3.
  - inversion H3. constructor.
  - inversion H3 as [|? e3 ? d3' (Hk' & Hd' & Hc') Hrest]; subst. constructor; [|auto].
    split; [congruence|]. split; [eapply same_definition_trans; eassumption | lia].
Qed.

Lemma grows_update (d : list (string * Automation)) (key : string)
    (f : Automation -> Automation) :
  (forall a, same_definition a (f a) /\ run_count a <= run_count (f a)) ->
  Forall2 entry_grows d (dict_update d key f).
Proof.
  intros Hf. induction d as [|[k a] d IH]; simpl; [constructor|].
  destruct (String.eqb k key).
  - constructor; [|apply grows_refl]. split; [reflexivity|]. apply Hf.
  - constructor; [apply entry_grows_refl | exact IH].
Qed.

Lemma evolves_same (st st' : State) : automations st' = automations st -> evolves st st'.
Proof. unfold evolves. intros ->. apply grows_refl. Qed.

Lemma evolves_trans (st1 st2 st3 : State) :
  evolves st1 st2 -> evolves st2 st3 -> evolves st1 st3.
Proof. apply grows_trans. Qed.

Lemma recorded_evolves (env : Env) (key : string) (automation : Automation) (result : value)
    (st1 : State) :
  evolves st1 (recorded env key automation result st1).
Proof.
  unfold evolves, recorded. cbn [automations].
  eapply grows_trans; apply grows_update; intros a; split;
    try (unfold same_definition; cbn; tauto); cbn; lia.
Qed.

Lemma execute_evolves (env : Env) (automation_id : string) (context : option Dict)
    (st : State) :
  evolves st (snd (execute_automation env automation_id context st)).
Proof.
  destruct (dict_get (automations st) automation_id) as [a|] eqn:H.
  - destruct (enabled a) eqn:Hon.
    + rewrite (execute_enabled _ _ _ _ _ H Hon).
      pose proof (run_action_frame env a (or_empty context) st) as [Hreg _].
      destruct (_run_action env a (or_empty context) st) as [[r|e] st1]; cbn [fst snd] in *.
      * eapply evolves_trans; [apply evolves_same; exact Hreg | apply recorded_evolves].
      * now apply evolves_same.
    + rewrite (execute_switched_off _ _ _ _ _ H Hon). now apply evolves_same.
  - rewrite (execute_missing _ _ _ _ H). now apply evolves_same.
Qed.

Lemma webhook_loop_evolves (env : Env) (payload : Dict) (l : list Automation) :
  forall (acc : list value) (st : State),
    evolves st (snd (webhook_loop env l payload acc st)).
Proof.
  induction l as [|a l IH]; intros acc st; simpl.
  - now apply evolves_same.
  - unfold bind at 1.
    pose proof (execute_evolves env (id a) (Some payload) st) as Hex.
    destruct (execute_automation env (id a) (Some payload) st) as [[r|e] st1];
      cbn [snd] in *; [|assumption].
    eapply evolves_trans; [exact Hex | apply IH].
Qed.

Lemma threshold_loop_evolves (env : Env) (metrics : Metrics) (l : list Automation) :
  forall (acc : list value) (st : State),
    evolves st (snd (threshold_loop env l metrics acc st)).
Proof.
  induction l as [|a l IH]; intros acc st; cbn [threshold_loop].
  - now apply evolves_same.
  - unfold bind at 1, lift.
    destruct (threshold_condition _ _ metrics) as [[|]|e]; cbn [snd].
    + unfold bind at 1.
      pose proof (execute_evolves env (id a) (Some (metrics_context metrics)) st) as Hex.
      destruct (execute_automation env (id a) (Some (metrics_context metrics)) st)
        as [[r|e] st1]; cbn [snd] in *; [|assumption].
      eapply evolves_trans; [exact Hex | apply IH].
    + apply IH.
    + now apply evolves_same.
Qed.

Lemma scheduled_turn_evolves (env : Env) (now : Z) (key : string) (st : State) :
  evolves st (snd (scheduled_turn env now key st)).
Proof.
  unfold scheduled_turn, bind at 1. unfold lookup.
  destruct (dict_get (automations st) key) as [a|]; [|now apply evolves_same].
  destruct (trigger_eqb (trigger a) SCHEDULED); cbn [negb]; [|now apply evolves_same].
  destruct (enabled a); cbn [negb]; [|now apply evolves_same].
  unfold bind at 1, lift.
  destruct (is_scheduled_due now a) as [[|]|e]; cbn [snd]; try now apply evolves_same.
  unfold bind. pose proof (execute_evolves env (id a) None st) as Hex.
  destruct (execute_automation env (id a) None st) as [[r|e] st1]; exact Hex.
Qed.

Lemma scheduled_pass_evolves (env : Env) (now : Z) (keys : list string) :
  forall st, evolves st (snd (for_each keys (scheduled_turn env now) st)).
Proof.
  induction keys as [|k keys IH]; intros st; simpl.
  - now apply evolves_same.
  - unfold bind. pose proof (scheduled_turn_evolves env now k st) as Hturn.
    destruct (scheduled_turn env now k st) as [[[]|e] st1]; cbn [snd] in *; [|assumption].
    eapply evolves_trans; [exact Hturn | apply IH].
Qed.

Lemma evolves_keys (st st' : State) :
  evolves st st' -> dict_keys (automations st') = dict_keys (automations st).
Proof.
  unfold evolves, dict_keys. induction 1 as [|e e' d d' (Hk & _) _ IH]; simpl; congruence.
Qed.

Lemma evolves_lookup (st st' : State) (key : string) :
  evolves st st' ->
  match dict_get (automations st) key, dict_get (automations st') key with
  | Some a, Some a' => same_definition a a' /\ run_count a <= run_count a'
  | None, None => True
  | _, _ => False
  end.
Proof.
  unfold evolves. induction 1 as [|[k a] [k' a'] d d' (Hk & Hd & Hc) _ IH]; simpl; [exact I|].
  simpl in Hk. subst k'. destruct (String.eqb k key); [tauto | exact IH].
Qed.

Lemma evolves_ok (st st' : State) :
  evolves st st' -> registry_ok (automations st) -> registry_ok (automations st').
Proof.
  intros Hev [Hnd Hid]. split.
  - now rewrite (evolves_keys _ _ Hev).
  - unfold evolves in Hev. clear Hnd. induction Hev as [|[k a] [k' a'] d d' (Hk & Hd & _) _ IH].
    + intros key a [].
    + simpl in Hk. subst k'. intros key b [[= <- <-]|Hin].
      * destruct Hd as (Hsame & _). cbn [snd] in Hsame. rewrite Hsame.
        apply Hid. now left.
      * apply IH; [|assumption]. intros key' b' Hin'. apply Hid. now right.
Qed.

Lemma execute_others (env : Env) (automation_id key : string) (context : option Dict)
    (st : State) :
  key <> automation_id ->
  dict_get (automations (snd (execute_automation env automation_id context st))) key
  = dict_get (automations st) key.
Proof.
  intros Hne.
  destruct (dict_get (automations st) automation_id) as [a|] eqn:H.
  - destruct (enabled a) eqn:Hon.
    + rewrite (execute_enabled _ _ _ _ _ H Hon).
      pose proof (run_action_frame env a (or_empty context) st) as [Hreg _].
      destruct (_run_action env a (or_empty context) st) as [[r|e] st1]; cbn [fst snd] in *.
      * now rewrite recorded_others, Hreg.
      * now rewrite Hreg.
    + now rewrite (execute_switched_off _ _ _ _ _ H Hon).
  - now rewrite (execute_missing _ _ _ _ H).
Qed.

(** X3. Whatever a call of [execute_automation] does -- return a result,
    return an error, let an exception of the handler through -- it
    leaves the registry with the same keys in the same order, under each
    key the same definition (id, name, level, trigger, configuration,
    action, providers, enabled flag), no [run_count] lower than before,
    and every automation but the one named exactly as it was. *)
Theorem execute_keeps_definitions (env : Env) (automation_id : string)
    (context : option Dict) (st : State) :
  let st' := snd (execute_automation env automation_id context st) in
  evolves st st'
  /\ dict_keys (automations st') = dict_keys (automations st)
  /\ (forall key, key <> automation_id ->
        dict_get (automations st') key = dict_get (automations st) key)
  /\ (forall key,
        match dict_get (automations st) key, dict_get (automations st') key with
        | Some a, Some a' => same_definition a a' /\ run_count a <= run_count a'
        | None, None => True
        | _, _ => False
        end).
Proof.
  intros st'. pose proof (execute_evolves env automation_id context st) as Hev.
  split; [exact Hev|]. split; [now apply evolves_keys|].
  split; [intros key Hne; now apply execute_others|].
  intros key. now apply evolves_lookup.
Qed.

Lemma handle_webhook_evolves (env : Env) (event_type : string) (payload : Dict) (st : State) :
  evolves st (snd (handle_webhook env event_type payload st)).
Proof.
  unfold handle_webhook, bind at 1. unfold bind.
  pose proof (webhook_loop_evolves env payload
                (select_event_automations event_type (automations st)) [] st) as H.
  destruct (webhook_loop env _ payload [] st) as [[r|e] st1]; exact H.
Qed.

Lemma check_thresholds_evolves (env : Env) (metrics : Metrics) (st : State) :
  evolves st (snd (check_thresholds env metrics st)).
Proof.
  unfold check_thresholds, bind at 1. unfold bind.
  pose proof (threshold_loop_evolves env metrics
                (select_threshold_automations (automations st)) [] st) as H.
  destruct (threshold_loop env _ metrics [] st) as [[r|e] st1]; exact H.
Qed.

Lemma run_scheduled_evolves (env : Env) (st : State) :
  evolves st (snd (run_scheduled_automations env st)).
Proof.
  unfold run_scheduled_automations, bind, datetime_now. cbn [automations].
  eapply evolves_trans; [|apply scheduled_pass_evolves]. now apply evolves_same.
Qed.

(** X4. The three batch entry points -- [handle_webhook],
    [check_thresholds] and [run_scheduled_automations] -- whatever their
    outcome, never add, remove, reorder or redefine an automation and never
    lower a [run_count]; a registry with no key twice and every key the id
    of its automation stays so. *)
Theorem batches_keep_definitions (env : Env) (st : State) (event_type : string)
    (payload : Dict) (metrics : Metrics) :
  let after_webhook := snd (handle_webhook env event_type payload st) in
  let after_check := snd (check_thresholds env metrics st) in
  let after_pass := snd (run_scheduled_automations env st) in
  (evolves st after_webhook /\ evolves st after_check /\ evolves st after_pass)
  /\ (registry_ok (automations st) ->
      registry_ok (automations after_webhook)
      /\ registry_ok (automations after_check)
      /\ registry_ok (automations after_pass)).
Proof.
  intros w c p.
  pose proof (handle_webhook_evolves env event_type payload st) as Hw.
  pose proof (check_thresholds_evolves env metrics st) as Hc.
  pose proof (run_scheduled_evolves env st) as Hp.
  split; [auto|]. intros Hok. repeat split; eapply evolves_ok; eauto.
Qed.

(** ** The listing *)

Lemma listed_lookup (env : Env) (d : list (string * Automation)) (key : string) :
  (forall k a, In (k, a) d -> id a = k) ->
  listed (map (fun a => VDict (listing_fields env a)) (dict_values d)) key
  = option_map (listing_fields env) (dict_get d key).
Proof.
  unfold dict_values. induction d as [|[k a] d IH]; intros Hid; [reflexivity|].
  cbn [map snd listed listing_fields dict_get String.eqb Ascii.eqb Bool.eqb].
  rewrite (Hid k a (or_introl eq_refl)).
  destruct (String.eqb k key); [reflexivity|].
  apply IH. intros k' a' Hin. apply Hid. now right.
Qed.

(** X5. [list_automations] changes nothing and is a faithful view of the
    registry: one entry per automation, in registry order, and -- in a
    registry where every key is the id of its automation -- the entry
    carrying a given id is the one built from the automation bound to
    that id, none when the id is not registered. *)
Theorem list_automations_view (env : Env) (st : State) :
  registry_ok (automations st) ->
  exists entries,
    list_automations env st = (Ret entries, st)
    /\ length entries = length (automations st)
    /\ map (fun e => match e with
                     | VDict d => dict_get d "id"
                     | _ => None
                     end) entries
       = map (fun key => Some (VStr key)) (dict_keys (automations st))
    /\ forall key,
         listed entries key = option_map (listing_fields env) (dict_get (automations st) key).
Proof.
  intros [_ Hid]. eexists. split; [reflexivity|].
  split; [unfold dict_values; now rewrite !length_map|].
  split; [|intros key; now apply listed_lookup].
  unfold dict_values, dict_keys. rewrite !map_map.
  apply map_ext_in. intros [k a] Hin. cbn. now rewrite (Hid k a Hin).
Qed.

Lemma list_automations_view_witness :
  exists entries,
    list_automations sample_env engine_init = (Ret entries, engine_init)
    /\ length entries = length (automations engine_init)
    /\ map (fun e => match e with
                     | VDict d => dict_get d "id"
                     | _ => None
                     end) entries
       = map (fun key => Some (VStr key)) (dict_keys (automations engine_init))
    /\ forall key,
         listed entries key
         = option_map (listing_fields sample_env) (dict_get (automations engine_init) key).
Proof. exact (list_automations_view sample_env engine_init engine_init_ok). Defined.

(** X6. After a call of [execute_automation] that ran the action step
    to a result, the listing shows the run: the entry of the automation
    has its [run_count] one up and as [last_run] the formatted time the
    dispatcher read, its other fields as before, and the entry of every
    other id is as before. *)
Theorem listing_after_run (env : Env) (st : State) (automation_id : string)
    (automation : Automation) (context : option Dict) (result : value) :
  registry_ok (automations st) ->
  dict_get (automations st) automation_id = Some automation ->
  enabled automation = true ->
  fst (_run_action env automation (or_empty context) st) = Ret result ->
  let st' := snd (execute_automation env automation_id context st) in
  let before := fst (list_automations env st) in
  let after := fst (list_automations env st') in
  exists entries entries',
    before = Ret entries /\ after = Ret entries'
    /\ listed entries' automation_id
       = Some (listing_fields env
                 (incr_run_count (set_last_run (now_at env (clock_reads st)) automation)))
    /\ option_map (fun d => dict_get d "run_count") (listed entries' automation_id)
       = Some (Some (VInt (run_count automation + 1)))
    /\ option_map (fun d => dict_get d "last_run") (listed entries' automation_id)
       = Some (Some (VStr (isoformat env (now_at env (clock_reads st)))))
    /\ forall key, key <> automation_id -> listed entries' key = listed entries key.
Proof.
  intros Hok H Hon Hret st' before after.
  pose proof (execute_evolves env automation_id context st) as Hev.
  pose proof (evolves_ok _ _ Hev Hok) as Hok'. fold st' in Hok'.
  assert (Hnew : dict_get (automations st') automation_id
                 = Some (incr_run_count
                           (set_last_run (now_at env (clock_reads st)) automation))).
  { unfold st'. rewrite (execute_enabled _ _ _ _ _ H Hon).
    pose proof (run_action_frame env automation (or_empty context) st) as [Hreg Hclk].
    destruct (_run_action env automation (or_empty context) st) as [[r|e] st1];
      cbn [fst snd] in *; [|discriminate].
    rewrite <- Hreg in H. now rewrite (recorded_lookup _ _ _ _ _ _ H), Hclk. }
  eexists _, _. split; [reflexivity|]. split; [reflexivity|].
  destruct Hok as [_ Hid]. destruct Hok' as [_ Hid'].
  rewrite (listed_lookup env _ _ Hid'), Hnew. cbn [option_map].
  split; [reflexivity|]. split; [reflexivity|]. split; [reflexivity|].
  intros key Hne. rewrite (listed_lookup env _ _ Hid'), (listed_lookup env _ _ Hid).
  unfold st'. now rewrite execute_others.
Qed.

Lemma listing_after_run_witness :
  let st' := snd (execute_automation sample_env "trend_detection" None engine_init) in
  exists entries entries',
    fst (list_automations sample_env engine_init) = Ret entries
    /\ fst (list_automations sample_env st') = Ret entries'
    /\ option_map (fun d => dict_get d "run_count") (listed entries' "trend_detection")
       = Some (Some (VInt 1))
    /\ option_map (fun d => dict_get d "last_run") (listed entries' "trend_detection")
       = Some (Some (VStr "2025-11-04T12:00:00"))
    /\ forall key, key <> "trend_detection" -> listed entries' key = listed entries key.
Proof.
  destruct (listing_after_run sample_env engine_init "trend_detection"
              (new_automation "trend_detection" "Industry Trend Detection" DISCOVERY SCHEDULED
                 [("interval_hours", VInt 6)] "detect_trends" ["perplexity"])
              None (VDict [("status", VStr "completed")])
              engine_init_ok eq_refl eq_refl eq_refl)
    as (entries & entries' & Hb & Ha & _ & Hcount & Hlast & Hrest).
  exists entries, entries'. repeat split; assumption.
Defined.

(** ** The scheduler pass *)

Lemma trigger_eqb_eq (a b : AutomationTrigger) : trigger_eqb a b = true <-> a = b.
Proof. destruct a, b; simpl; split; congruence. Qed.

Lemma scheduled_turn_cases (env : Env) (now : Z) (key : string) (st : State) :
  scheduled_turn env now key st
  = match dict_get (automations st) key with
    | None => (Ret tt, st)
    | Some a =>
        if trigger_eqb (trigger a) SCHEDULED && enabled a then
          match is_scheduled_due now a with
          | Ret true =>
              match execute_automation env (id a) None st with
              | (Ret _, st1) => (Ret tt, st1)
              | (Raise e, st1) => (Raise e, st1)
              end
          | Ret false => (Ret tt, st)
          | Raise e => (Raise e, st)
          end
        else (Ret tt, st)
    end.
Proof.
  unfold scheduled_turn, bind at 1. unfold lookup.
  destruct (dict_get (automations st) key) as [a|]; [|reflexivity].
  destruct (trigger_eqb (trigger a) SCHEDULED); cbn [negb andb]; [|reflexivity].
  destruct (enabled a); cbn [negb]; [|reflexivity].
  unfold bind at 1, lift. destruct (is_scheduled_due now a) as [[|]|e]; reflexivity.
Qed.

Lemma ok_lookup_id (d : list (string * Automation)) (key : string) (a : Automation) :
  registry_ok d -> dict_get d key = Some a -> id a = key.
Proof. intros [_ Hid] H. apply Hid. now apply dict_get_in. Qed.

Lemma scheduled_turn_spares (env : Env) (now : Z) (k key : string) (a : Automation)
    (st : State) :
  registry_ok (automations st) ->
  dict_get (automations st) key = Some a ->
  trigger a <> SCHEDULED \/ enabled a = false ->
  dict_get (automations (snd (scheduled_turn env now k st))) key = Some a.
Proof.
  intros Hok H Hspare. rewrite scheduled_turn_cases.
  destruct (dict_get (automations st) k) as [b|] eqn:Hk; [|exact H].
  destruct (trigger_eqb (trigger b) SCHEDULED && enabled b) eqn:Hrun; [|exact H].
  destruct (is_scheduled_due now b) as [[|]|e]; try exact H.
  assert (Hne : key <> id b).
  { rewrite (ok_lookup_id _ _ _ Hok Hk). intros ->. rewrite H in Hk. injection Hk as <-.
    apply andb_true_iff in Hrun as [Ht Hon]. apply trigger_eqb_eq in Ht.
    destruct Hspare; congruence. }
  pose proof (execute_others env (id b) key None st Hne) as Hothers.
  destruct (execute_automation env (id b) None st) as [[r|e] st1]; cbn [snd] in *;
    now rewrite Hothers.
Qed.

Lemma scheduled_pass_spares (env : Env) (now : Z) (key : string) (a : Automation)
    (keys : list string) :
  trigger a <> SCHEDULED \/ enabled a = false ->
  forall st,
    registry_ok (automations st) ->
    dict_get (automations st) key = Some a ->
    dict_get (automations (snd (for_each keys (scheduled_turn env now) st))) key = Some a.
Proof.
  intros Hspare. induction keys as [|k keys IH]; intros st Hok H; simpl; [exact H|].
  unfold bind.
  pose proof (scheduled_turn_spares env now k key a st Hok H Hspare) as Hturn.
  pose proof (evolves_ok _ _ (scheduled_turn_evolves env now k st) Hok) as Hok1.
  destruct (scheduled_turn env now k st) as [[[]|e] st1]; cbn [snd] in *; auto.
Qed.

(** X7. A pass of [run_scheduled_automations] never touches an
    automation that is not scheduled or is disabled: whatever the pass
    does and however it ends, such an automation is afterwards exactly as
    it was, statistics included. *)
Theorem scheduler_spares_the_rest (env : Env) (st : State) (key : string)
    (automation : Automation) :
  registry_ok (automations st) ->
  dict_get (automations st) key = Some automation ->
  trigger automation <> SCHEDULED \/ enabled automation = false ->
  dict_get (automations (snd (run_scheduled_automations env st))) key = Some automation.
Proof.
  intros Hok H Hspare. unfold run_scheduled_automations, bind, datetime_now.
  cbn [automations]. now apply scheduled_pass_spares.
Qed.

Lemma scheduler_spares_the_rest_witness :
  dict_get (automations (snd (run_scheduled_automations sample_env engine_init)))
    "pricing_optimizer"
  = Some (new_automation "pricing_optimizer" "Dynamic Pricing Optimizer" OPTIMIZATION
            THRESHOLD [("metric", VStr "conversion_rate"); ("threshold", VFloat float_0_02)]
            "optimize_pricing" ["claude"]).
Proof.
  apply scheduler_spares_the_rest; [exact engine_init_ok | reflexivity | left; discriminate].
Defined.

Lemma execute_runs (env : Env) (st : State) (automation : Automation)
    (context : option Dict) :
  reliable env ->
  registry_ok (automations st) ->
  dict_get (automations st) (id automation) = Some automation ->
  enabled automation = true ->
  exists r st1 t,
    execute_automation env (id automation) context st = (Ret r, st1)
    /\ dict_get (automations st1) (id automation)
       = Some (incr_run_count (set_last_run t automation))
    /\ (forall key, key <> id automation ->
          dict_get (automations st1) key = dict_get (automations st) key)
    /\ registry_ok (automations st1).
Proof.
  intros Hrel Hok H Hon.
  pose proof (execute_evolves env (id automation) context st) as Hev.
  pose proof (fun key => execute_others env (id automation) key context st) as Hothers.
  rewrite (execute_enabled _ _ _ _ _ H Hon) in *.
  destruct (run_action_returns env Hrel automation (or_empty context) st) as [r Hr].
  pose proof (run_action_frame env automation (or_empty context) st) as [Hreg _].
  destruct (_run_action env automation (or_empty context) st) as [[r'|e] st1];
    cbn [fst snd] in *; [|discriminate].
  eexists _, _, _. split; [reflexivity|]. rewrite <- Hreg in H.
  split; [exact (recorded_lookup _ _ _ _ _ _ H)|]. split; [exact Hothers|].
  exact (evolves_ok _ _ Hev Hok).
Qed.

Lemma scheduled_pass_spec (env : Env) (now : Z) (keys : list string) :
  reliable env ->
  NoDup keys ->
  forall st,
    registry_ok (automations st) ->
    (forall key a, In key keys -> dict_get (automations st) key = Some a ->
       trigger a = SCHEDULED -> enabled a = true -> exists due, is_scheduled_due now a = Ret due) ->
    exists st',
      for_each keys (scheduled_turn env now) st = (Ret tt, st')
      /\ (forall key, ~ In key keys ->
            dict_get (automations st') key = dict_get (automations st) key)
      /\ (forall key a, In key keys -> dict_get (automations st) key = Some a ->
            if runs_at now a
            then exists t, dict_get (automations st') key
                           = Some (incr_run_count (set_last_run t a))
            else dict_get (automations st') key = Some a).
Proof.
  intros Hrel. induction 1 as [|k keys Hnotin Hnd IH]; intros st Hok Hdue.
  - exists st. split; [reflexivity|]. split; [reflexivity|]. intros key a [].
  - cbn [for_each]. unfold bind. rewrite scheduled_turn_cases.
    assert (Hstep : forall st1,
               registry_ok (automations st1) ->
               (forall key, key <> k ->
                  dict_get (automations st1) key = dict_get (automations st) key) ->
               (forall a, dict_get (automations st) k = Some a ->
                  if runs_at now a
                  then exists t, dict_get (automations st1) k
                                 = Some (incr_run_count (set_last_run t a))
                  else dict_get (automations st1) k = Some a) ->
               exists st',
                 for_each keys (scheduled_turn env now) st1 = (Ret tt, st')
                 /\ (forall key, ~ In key (k :: keys) ->
                       dict_get (automations st') key = dict_get (automations st) key)
                 /\ (forall key a, In key (k :: keys) ->
                       dict_get (automations st) key = Some a ->
                       if runs_at now a
                       then exists t, dict_get (automations st') key
                                      = Some (incr_run_count (set_last_run t a))
                       else dict_get (automations st') key = Some a)).
    { intros st1 Hok1 Hsame Hk.
      assert (Hin_ne : forall key, In key keys -> key <> k) by (intros key Hin ->; auto).
      destruct (IH st1 Hok1) as (st' & Hrun & Hout & Hin).
      { intros key a Hkey Hget. rewrite (Hsame key (Hin_ne key Hkey)) in Hget.
        apply (Hdue key a); [now right | assumption]. }
      exists st'. split; [exact Hrun|]. split.
      - intros key Hnot. rewrite Hout by (intros Hc; apply Hnot; now right).
        apply Hsame. intros ->. apply Hnot. now left.
      - intros key a [<-|Hkey] Hget.
        + rewrite (Hout k Hnotin). now apply Hk.
        + apply Hin; [assumption|]. now rewrite (Hsame key (Hin_ne key Hkey)). }
    destruct (dict_get (automations st) k) as [a|] eqn:Hk.
    + unfold runs_at in Hstep.
      destruct (trigger_eqb (trigger a) SCHEDULED && enabled a) eqn:Hrun.
      * apply andb_true_iff in Hrun as [Ht Hon]. apply trigger_eqb_eq in Ht.
        destruct (Hdue k a (or_introl eq_refl) Hk Ht Hon) as [due Hd]. rewrite Hd.
        destruct due.
        -- pose proof (ok_lookup_id _ _ _ Hok Hk) as Hid. rewrite <- Hid in Hk.
           destruct (execute_runs env st a None Hrel Hok Hk Hon)
             as (r & st1 & t & Hex & Hnew & Hothers & Hok1).
           rewrite Hex. rewrite Hid in *. apply Hstep; [assumption | assumption |].
           intros a' [= <-]. rewrite Ht, Hon, Hd. cbn. now exists t.
        -- apply Hstep; [assumption | reflexivity |].
           intros a' [= <-]. rewrite Ht, Hon, Hd. cbn. exact Hk.
      * apply Hstep; [assumption | reflexivity |].
        intros a' [= <-]. rewrite Hrun. cbn. exact Hk.
    + apply Hstep; [assumption | reflexivity | intros a' [=]].
Qed.

(** X8. On a registry with no key twice and every key the id of its
    automation, when every request is answered and the interval of every
    enabled scheduled automation is one the interval test can evaluate,
    a pass of [run_scheduled_automations] at time [now] returns, and it
    ran exactly the automations that are scheduled, enabled and due at
    [now], each once: these have their [run_count] one up and a new
    [last_run], all others are exactly as they were. *)
Theorem scheduler_runs_the_due (env : Env) (st : State) :
  reliable env ->
  registry_ok (automations st) ->
  let now := now_at env (clock_reads st) in
  (forall key a, dict_get (automations st) key = Some a ->
     trigger a = SCHEDULED -> enabled a = true ->
     exists due, is_scheduled_due now a = Ret due) ->
  exists st',
    run_scheduled_automations env st = (Ret tt, st')
    /\ dict_keys (automations st') = dict_keys (automations st)
    /\ forall key a, dict_get (automations st) key = Some a ->
         if runs_at now a
         then exists t, dict_get (automations st') key
                        = Some (incr_run_count (set_last_run t a))
         else dict_get (automations st') key = Some a.
Proof.
  intros Hrel Hok now Hdue.
  pose proof (run_scheduled_evolves env st) as Hev.
  unfold run_scheduled_automations, bind, datetime_now in *. cbn [automations] in *.
  fold now in Hev |- *.
  destruct (scheduled_pass_spec env now (dict_keys (automations st)) Hrel (proj1 Hok)
              (mkState (automations st) (S (clock_reads st)) (posts st) (trace st)) Hok)
    as (st' & Hrun & _ & Hin).
  { intros key a _. apply Hdue. }
  cbn [automations] in *. rewrite Hrun in *. cbn [snd] in Hev.
  exists st'. split; [reflexivity|]. split; [now apply evolves_keys in Hev|].
  intros key a Hget. apply Hin; [|assumption].
  apply dict_get_in in Hget. unfold dict_keys. change key with (fst (key, a)).
  now apply in_map.
Qed.

Lemma scheduler_runs_the_due_witness :
  exists st',
    run_scheduled_automations sample_env engine_init = (Ret tt, st')
    /\ dict_keys (automations st') = dict_keys (automations engine_init)
    /\ forall key a, dict_get (automations engine_init) key = Some a ->
         if runs_at (now_at sample_env (clock_reads engine_init)) a
         then exists t, dict_get (automations st') key
                        = Some (incr_run_count (set_last_run t a))
         else dict_get (automations st') key = Some a.
Proof.
  apply (scheduler_runs_the_due sample_env engine_init sample_env_reliable engine_init_ok).
  intros key a H _ _. exists true. apply due_without_last_run.
  apply dict_get_in in H. vm_compute in H.
  repeat (destruct H as [H|H]; [injection H as <- <-; reflexivity|]). destruct H.
Defined.

(** X9. An enabled scheduled automation whose [interval_hours] is not a
    number is run by the first pass that meets it, which does not look at
    the interval as long as there is no [last_run]; once it has a
    [last_run], its turn raises [TypeError] before anything is changed,
    and the pass ends there: the automations after it in the registry are
    not visited. *)
Theorem scheduler_bad_interval (env : Env) (now : Z) (key : string)
    (automation : Automation) (h : value) (rest : list string) (st : State) :
  dict_get (automations st) key = Some automation ->
  trigger automation = SCHEDULED ->
  enabled automation = true ->
  dict_get (trigger_config automation) "interval_hours" = Some h ->
  as_number h = None ->
  match last_run automation with
  | None =>
      scheduled_turn env now key st
      = (_ <- execute_automation env (id automation) None ;; ret tt) st
  | Some _ =>
      for_each (key :: rest) (scheduled_turn env now) st = (Raise TypeError, st)
  end.
Proof.
  intros H Ht Hon Hcfg Hnum.
  assert (Hdue : is_scheduled_due now automation
                 = match last_run automation with
                   | None => Ret true
                   | Some _ => Raise TypeError
                   end).
  { unfold is_scheduled_due, dict_get_default, timedelta_hours. rewrite Hcfg, Hnum.
    now destruct (last_run automation). }
  cbn [for_each]. unfold bind at 1. rewrite !scheduled_turn_cases, H, Ht, Hon, Hdue.
  cbn [trigger_eqb andb]. destruct (last_run automation); [reflexivity|].
  unfold bind, ret. destruct (execute_automation env (id automation) None st) as [[r|e] st1];
    reflexivity.
Qed.

Lemma scheduler_bad_interval_witness :
  for_each ["daily_report"; "trend_detection"] (scheduled_turn sample_env 63900003600000000)
    engine_bad_interval
  = (Raise TypeError, engine_bad_interval).
Proof.
  exact (scheduler_bad_interval sample_env 63900003600000000 "daily_report"
           report_bad_interval (VStr "daily") ["trend_detection"] engine_bad_interval
           eq_refl eq_refl eq_refl eq_refl eq_refl).
Defined.

(** ** The loop *)

Lemma automation_cycle_effect (env : Env) (st : State) :
  automation_cycle env st = (Ret tt, snd (run_scheduled_automations env st)).
Proof.
  unfold automation_cycle, bind, try_except, sleep, ret.
  destruct (run_scheduled_automations env st) as [[[]|e] st1]; reflexivity.
Qed.

(** X10. A turn of the loop of [start_automation_loop] never raises,
    whatever the scheduler pass inside it did: an exception of a handler
    or of the interval test ends the pass, not the loop, and what the pass
    had recorded before stays recorded. So any number of turns in a row
    complete, and across them no automation is added, removed, reordered
    or redefined and no [run_count] goes down. *)
Theorem loop_survives_failures (env : Env) (n : nat) (st : State) :
  automation_cycle env st = (Ret tt, snd (run_scheduled_automations env st))
  /\ fst (automation_cycles env n st) = Ret tt
  /\ evolves st (snd (automation_cycles env n st)).
Proof.
  split; [apply automation_cycle_effect|]. revert st.
  induction n as [|n IH]; intros st; cbn [automation_cycles].
  - split; [reflexivity | now apply evolves_same].
  - unfold bind. rewrite automation_cycle_effect.
    destruct (IH (snd (run_scheduled_automations env st))) as [Hret Hev].
    split; [exact Hret|].
    eapply evolves_trans; [apply run_scheduled_evolves | exact Hev].
Qed.

(** A server that never answers: the pass raises at the first due
    automation, the turn of the loop does not. *)
Example cycle_with_dead_server :
  let env := with_transport sample_env (fun _ _ _ => Raise (IOError "unreachable")) in
  fst (run_scheduled_automations env engine_init) = Raise (IOError "unreachable")
  /\ fst (automation_cycle env engine_init) = Ret tt
  /\ run_count_of (snd (automation_cycle env engine_init)) "discover_market_gaps" = Some 0.
Proof. vm_compute. repeat split. Qed.

(** ** Edges of the fan-out *)

Lemma threshold_loop_unreported (env : Env) (metrics : Metrics) (l : list Automation) :
  Forall (unreported metrics) l ->
  forall acc st, threshold_loop env l metrics acc st = (Ret acc, st).
Proof.
  induction 1 as [|a l Ha _ IH]; intros acc st; cbn [threshold_loop]; [reflexivity|].
  unfold bind at 1, lift. unfold unreported in Ha. unfold threshold_condition.
  destruct (dict_get_default (trigger_config a) "metric" VNone) as [| | | |m| |];
    try contradiction; try apply IH.
  rewrite Ha. apply IH.
Qed.

(** X11. A report that carries the metric of none of the threshold
    automations -- the empty report among them -- triggers nothing,
    whatever the thresholds are, missing and ill-typed ones included:
    [check_thresholds] returns a count of 0 and an empty list, sends no
    request and leaves the state as it was. *)
Theorem check_thresholds_unreported (env : Env) (metrics : Metrics) (st : State) :
  Forall (unreported metrics) (select_threshold_automations (automations st)) ->
  check_thresholds env metrics st
  = (Ret (VDict [("triggered", VInt 0); ("results", VList [])]), st).
Proof.
  intros H. unfold check_thresholds, bind. now rewrite threshold_loop_unreported.
Qed.

Lemma check_thresholds_unreported_witness :
  check_thresholds sample_env [("page_views", Int 12000)] engine_init
  = (Ret (VDict [("triggered", VInt 0); ("results", VList [])]), engine_init).
Proof.
  apply check_thresholds_unreported. vm_compute.
  repeat (constructor; [reflexivity|]). constructor.
Defined.



Lemma ok_value_lookup (d : list (string * Automation)) (a : Automation) :
  registry_ok d -> In a (dict_values d) -> dict_get d (id a) = Some a.
Proof.
  intros [Hnd Hid] Hin. unfold dict_values in Hin. apply in_map_iff in Hin as ([k b] & <- & Hin).
  cbn [snd]. rewrite (Hid k b Hin). now apply in_dict_get.
Qed.

Lemma webhook_loop_disabled (env : Env) (payload : Dict) (st : State) (l : list Automation) :
  (forall a, In a l -> dict_get (automations st) (id a) = Some a /\ enabled a = false) ->
  forall acc,
    webhook_loop env l payload acc st
    = (Ret (acc ++ map (fun a =>
                          webhook_entry a
                            (error_result ("Automation " ++ id a ++ " is disabled"))) l)%list,
       st).
Proof.
  induction l as [|a l IH]; intros Hall acc; cbn [webhook_loop map].
  - unfold ret. now rewrite app_nil_r.
  - destruct (Hall a (or_introl eq_refl)) as [Hget Hoff].
    unfold bind at 1. rewrite (execute_switched_off _ _ _ _ _ Hget Hoff).
    rewrite IH by (intros b Hb; apply Hall; now right).
    now rewrite <- app_assoc.
Qed.

(** X13. When every automation listening to an event is disabled -- or
    none listens to it -- [handle_webhook] runs nothing: no handler is
    called, no request is sent and the state is as it was; its result
    still counts every listener and gives, for each, the disabled
    error. *)
Theorem handle_webhook_all_disabled (env : Env) (event_type : string) (payload : Dict)
    (st : State) :
  registry_ok (automations st) ->
  (forall a, In a (select_event_automations event_type (automations st)) ->
             enabled a = false) ->
  let listeners := select_event_automations event_type (automations st) in
  handle_webhook env event_type payload st
  = (Ret (VDict [("triggered", VInt (Z.of_nat (length listeners)));
                 ("results",
                  VList (map (fun a =>
                                webhook_entry a
                                  (error_result ("Automation " ++ id a ++ " is disabled")))
                           listeners))]),
     st).
Proof.
  intros Hok Hoff listeners. unfold handle_webhook, bind. fold listeners.
  rewrite webhook_loop_disabled.
  - unfold ret, summary. cbn [app]. now rewrite length_map.
  - intros a Hin. split; [|now apply Hoff].
    apply ok_value_lookup; [assumption|].
    unfold listeners, select_event_automations in Hin. now apply filter_In in Hin.
Qed.

Lemma handle_webhook_all_disabled_witness :
  handle_webhook sample_env "opportunity_discovered" [] engine_template_off
  = (Ret (VDict [("triggered", VInt 1);
                 ("results",
                  VList [VDict [("automation_id", VStr "template_generation");
                                ("result",
                                 error_result
                                   "Automation template_generation is disabled")]])]),
     engine_template_off).
Proof.
  assert (Hok : registry_ok (automations engine_template_off))
    by (apply register_keeps_ok, engine_init_ok).
  apply (handle_webhook_all_disabled sample_env "opportunity_discovered" []
           engine_template_off Hok).
  intros a Hin. vm_compute in Hin. destruct Hin as [<-|[]]. reflexivity.
Defined.

(** ** Time *)

Lemma recorded_entry (env : Env) (key key' : string) (automation a : Automation)
    (result : value) (st1 : State) :
  dict_get (automations (recorded env key automation result st1)) key' = Some a ->
  (key' = key /\ exists b, dict_get (automations st1) key = Some b
                           /\ a = incr_run_count (set_last_run (now_at env (clock_reads st1)) b))
  \/ (key' <> key /\ dict_get (automations st1) key' = Some a).
Proof.
  intros H. destruct (String.eqb_spec key' key) as [->|Hne].
  - left. split; [reflexivity|].
    unfold recorded in H. cbn [automations] in H. rewrite !dict_get_update_same in H.
    destruct (dict_get (automations st1) key) as [b|]; [|discriminate].
    exists b. split; [reflexivity|]. cbn in H. now injection H as <-.
  - right. split; [assumption|]. now rewrite recorded_others in H.
Qed.

(** X14. With a clock that never goes back, and no [last_run] in the
    registry later than the clock, a call of [execute_automation] never
    moves a [last_run] back: an automation that had one has one at least
    as late afterwards, and again no [last_run] is later than the
    clock. *)
Theorem last_run_never_goes_back (env : Env) (automation_id : string)
    (context : option Dict) (st : State) :
  monotone_clock env ->
  not_ahead env st ->
  let st' := snd (execute_automation env automation_id context st) in
  not_ahead env st'
  /\ forall key a a' t,
       dict_get (automations st) key = Some a ->
       dict_get (automations st') key = Some a' ->
       last_run a = Some t ->
       exists t', last_run a' = Some t' /\ t <= t'.
Proof.
  intros Hmono Hbehind st'. subst st'.
  destruct (dict_get (automations st) automation_id) as [a0|] eqn:H.
  - destruct (enabled a0) eqn:Hon.
    + rewrite (execute_enabled _ _ _ _ _ H Hon).
      pose proof (run_action_frame env a0 (or_empty context) st) as [Hreg Hclk].
      destruct (_run_action env a0 (or_empty context) st) as [[r|e] st1]; cbn [fst snd] in *.
      * assert (Hlater : now_at env (clock_reads st1)
                         <= now_at env (clock_reads (recorded env automation_id a0 r st1)))
          by (apply Hmono; cbn; lia).
        split.
        -- intros key a t Hget Hlast.
           apply recorded_entry in Hget as [(-> & b & Hb & ->)|(Hne & Hget)].
           ++ cbn in Hlast. injection Hlast as <-. exact Hlater.
           ++ rewrite Hreg in Hget. pose proof (Hbehind key a t Hget Hlast).
              rewrite Hclk in Hlater. lia.
        -- intros key a a' t Hget Hget' Hlast.
           apply recorded_entry in Hget' as [(-> & b & Hb & ->)|(Hne & Hget')].
           ++ cbn. eexists. split; [reflexivity|]. rewrite Hclk. now apply (Hbehind _ _ _ Hget).
           ++ rewrite Hreg, Hget in Hget'. injection Hget' as <-. exists t. split; [assumption|lia].
      * split.
        -- intros key a t Hget Hlast. rewrite Hreg in Hget. rewrite Hclk. eauto.
        -- intros key a a' t Hget Hget' Hlast. rewrite Hreg, Hget in Hget'.
           injection Hget' as <-. exists t. split; [assumption|lia].
    + rewrite (execute_switched_off _ _ _ _ _ H Hon). cbn [snd]. split; [assumption|].
      intros key a a' t Hget Hget' Hlast. rewrite Hget in Hget'. injection Hget' as <-.
      exists t. split; [assumption|lia].
  - rewrite (execute_missing _ _ _ _ H). cbn [snd]. split; [assumption|].
    intros key a a' t Hget Hget' Hlast. rewrite Hget in Hget'. injection Hget' as <-.
    exists t. split; [assumption|lia].
Qed.

Lemma sample_clock_monotone : monotone_clock sample_env.
Proof. intros n m Hnm. unfold sample_env. cbv [now_at]. lia. Qed.

Lemma last_run_never_goes_back_witness :
  let st' := snd (execute_automation sample_env "daily_report" None engine_report_ran) in
  not_ahead sample_env st'
  /\ forall key a a' t,
       dict_get (automations engine_report_ran) key = Some a ->
       dict_get (automations st') key = Some a' ->
       last_run a = Some t ->
       exists t', last_run a' = Some t' /\ t <= t'.
Proof.
  apply (last_run_never_goes_back sample_env "daily_report" None engine_report_ran
           sample_clock_monotone).
  intros key a t Hget Hlast. apply dict_get_in in Hget. vm_compute in Hget.
  repeat (destruct Hget as [Hget|Hget];
          [injection Hget as <- <-; try discriminate Hlast;
           injection Hlast as <-; vm_compute; discriminate|]).
  destruct Hget.
Defined.

(** ** What is stored *)

Lemma last_three {A : Type} (l : list A) (a b c d : A) :
  last (l ++ [a; b; c]) d = c.
Proof.
  change [a; b; c] with ([a; b] ++ [c])%list. rewrite app_assoc. apply last_last.
Qed.

(** X15. A run that completes ends with one request to the store, whose
    key is ["automation_"], the id of the automation, ["_"], and the
    formatted first reading of the clock after [last_run] was set. The
    result does not enter the key: two runs of an automation whose
    readings format to the same text are stored under the same key. *)
Theorem store_key_of_a_run (env : Env) (st st2 : State) (automation_id : string)
    (automation automation2 : Automation) (context context2 : option Dict)
    (result result2 : value) :
  dict_get (automations st) automation_id = Some automation ->
  enabled automation = true ->
  fst (_run_action env automation (or_empty context) st) = Ret result ->
  dict_get (automations st2) automation_id = Some automation2 ->
  enabled automation2 = true ->
  fst (_run_action env automation2 (or_empty context2) st2) = Ret result2 ->
  id automation2 = id automation ->
  let key_of := fun st0 => last_store_key env (trace (snd st0)) in
  let run := execute_automation env automation_id context st in
  let run2 := execute_automation env automation_id context2 st2 in
  key_of run
  = Some (VStr ("automation_" ++ id automation ++ "_"
                  ++ strftime env (now_at env (S (clock_reads st)))))
  /\ (strftime env (now_at env (S (clock_reads st)))
      = strftime env (now_at env (S (clock_reads st2))) ->
      key_of run2 = key_of run).
Proof.
  intros H Hon Hret H2 Hon2 Hret2 Hid key_of run run2.
  assert (Hkey : forall s a c r,
             dict_get (automations s) automation_id = Some a ->
             enabled a = true ->
             fst (_run_action env a (or_empty c) s) = Ret r ->
             key_of (execute_automation env automation_id c s)
             = Some (VStr ("automation_" ++ id a ++ "_"
                             ++ strftime env (now_at env (S (clock_reads s)))))).
  { intros s a c r Hs Hons Hrets. unfold key_of.
    rewrite (execute_enabled _ _ _ _ _ Hs Hons).
    pose proof (run_action_frame env a (or_empty c) s) as [_ Hclk].
    destruct (_run_action env a (or_empty c) s) as [[r'|e] s1]; cbn [fst snd] in *;
      [|discriminate].
    unfold recorded, last_store_key. cbn [trace].
    rewrite last_three, String.eqb_refl, Hclk. reflexivity. }
  split.
  - exact (Hkey st automation context result H Hon Hret).
  - intros Hsame. unfold run, run2.
    rewrite (Hkey st automation context result H Hon Hret),
      (Hkey st2 automation2 context2 result2 H2 Hon2 Hret2), Hid, Hsame.
    reflexivity.
Qed.

Lemma store_key_of_a_run_witness :
  let key_of := fun st0 => last_store_key sample_env (trace (snd st0)) in
  let run := execute_automation sample_env "daily_report" None engine_with_report in
  let run2 := execute_automation sample_env "daily_report" (Some [("topic", VStr "again")])
                engine_report_ran in
  key_of run = Some (VStr "automation_daily_report_20251104_120000")
  /\ key_of run2 = key_of run.
Proof.
  destruct (store_key_of_a_run sample_env engine_with_report engine_report_ran "daily_report"
              daily_report (incr_run_count (set_last_run 63900000000000000 daily_report))
              None (Some [("topic", VStr "again")])
              (VDict [("status", VStr "initiated");
                      ("message", VStr "Copy optimization initiated")])
              (VDict [("status", VStr "initiated");
                      ("message", VStr "Copy optimization initiated")]))
    as [Hkey Hsame]; try (vm_compute; reflexivity).
  split; [exact Hkey | apply Hsame; reflexivity].
Defined.

(** ** The handlers *)

Lemma offline_lookup (act : string) :
  In act offline_actions ->
  exists h : Handler,
    (forall env, dict_get (action_handlers env) act = Some h)
    /\ forall a ctx st, exists r, h a ctx st = (Ret r, st).
Proof.
  intros Hin. unfold offline_actions in Hin.
  repeat (destruct Hin as [<-|Hin];
          [eexists; split; [intros env; reflexivity | intros a ctx st; eexists; reflexivity]|]).
  destruct Hin.
Qed.

(** X16. Six actions -- building a SaaS feature, optimizing copy,
    enhancing features, expanding markets, cloning a product, creating an
    affiliate program -- are answered on the spot: a run of an enabled
    automation with one of them returns the same result whatever the
    server does, never raises, and sends one request only, the one to the
    store. *)
Theorem offline_actions_need_no_agent (st : State) (automation_id : string)
    (automation : Automation) (context : option Dict) :
  dict_get (automations st) automation_id = Some automation ->
  enabled automation = true ->
  In (action automation) offline_actions ->
  exists result,
    forall env,
      fst (execute_automation env automation_id context st) = Ret result
      /\ posts (snd (execute_automation env automation_id context st)) = S (posts st)
      /\ run_count_of (snd (execute_automation env automation_id context st)) automation_id
         = Some (run_count automation + 1).
Proof.
  intros H Hon Hact. destruct (offline_lookup _ Hact) as (h & Hh & Hret).
  destruct (Hret automation (or_empty context)
              (snd (log (EvHandlerCall (action automation)) st))) as [r Hr].
  exists r. intros env.
  rewrite (execute_enabled _ _ _ _ _ H Hon), (run_action_known _ _ _ _ _ (Hh env)), Hr.
  cbn [fst snd]. split; [reflexivity|]. split; [reflexivity|].
  unfold run_count_of. erewrite recorded_lookup by exact H. reflexivity.
Qed.

Lemma offline_actions_need_no_agent_witness :
  exists result,
    forall env,
      fst (execute_automation env "copy_optimizer" None engine_init) = Ret result
      /\ posts (snd (execute_automation env "copy_optimizer" None engine_init)) = 1%nat
      /\ run_count_of (snd (execute_automation env "copy_optimizer" None engine_init))
           "copy_optimizer"
         = Some (0 + 1).
Proof.
  apply (offline_actions_need_no_agent engine_init "copy_optimizer"
           (new_automation "copy_optimizer" "Marketing Copy Optimizer" OPTIMIZATION SCHEDULED
              [("interval_hours", VInt 72)] "optimize_copy" ["claude"; "gemini"])
           None eq_refl eq_refl).
  vm_compute. tauto.
Defined.

Lemma agent_lookup (env : Env) (act : string) :
  In act agent_actions ->
  exists (h : Handler) (url : string) (body : Dict -> value),
    dict_get (action_handlers env) act = Some h
    /\ url <> store_url env
    /\ forall a ctx,
         h a ctx = (response <- post env url (body ctx) ;; lift (json response)).
Proof.
  intros Hin. unfold agent_actions in Hin.
  repeat (destruct Hin as [<-|Hin];
          [eexists _, _, (fun ctx => _); split; [reflexivity|];
           split; [|intros a ctx; reflexivity];
           apply agent_url_not_store; discriminate|]).
  destruct Hin.
Qed.

Lemma agent_failure_effect (env : Env) (st : State) (automation_id : string)
    (automation : Automation) (context : option Dict) (e : exn) :
  dict_get (automations st) automation_id = Some automation ->
  enabled automation = true ->
  In (action automation) agent_actions ->
  request_fails env (posts st) e ->
  let out := execute_automation env automation_id context st in
  fst out = Raise e
  /\ automations (snd out) = automations st
  /\ clock_reads (snd out) = clock_reads st
  /\ posts (snd out) = S (posts st)
  /\ exists url body,
       url <> store_url env
       /\ trace (snd out)
          = (trace st ++ [EvHandlerCall (action automation); EvPost url body])%list.
Proof.
  intros H Hon Hact Hfail out. subst out.
  destruct (agent_lookup env _ Hact) as (h & url & body & Hh & Hurl & Hcall).
  rewrite (execute_enabled _ _ _ _ _ H Hon), (run_action_known _ _ _ _ _ Hh), Hcall.
  unfold bind, post, log, lift. cbn [snd posts automations clock_reads trace].
  specialize (Hfail url (body (or_empty context))).
  destruct (transport env (posts st) url (body (or_empty context))) as [response|e'].
  - rewrite Hfail. cbn [fst snd automations clock_reads posts trace].
    repeat split. exists url, (body (or_empty context)). split; [assumption|].
    now rewrite <- app_assoc.
  - subst e'. cbn [fst snd automations clock_reads posts trace].
    repeat split. exists url, (body (or_empty context)). split; [assumption|].
    now rewrite <- app_assoc.
Qed.

(** X17. The other six actions ask an agent. When that request fails --
    the call raises, or the reply has no body that decodes --
    [execute_automation] raises the same exception to its caller; the run
    is not recorded: the registry and the clock are as before and no
    request goes to the store, the failed one being the only request
    sent. *)
Theorem agent_failure_escapes (env : Env) (st : State) (automation_id : string)
    (automation : Automation) (context : option Dict) (e : exn) :
  dict_get (automations st) automation_id = Some automation ->
  enabled automation = true ->
  In (action automation) agent_actions ->
  request_fails env (posts st) e ->
  let out := execute_automation env automation_id context st in
  fst out = Raise e
  /\ automations (snd out) = automations st
  /\ clock_reads (snd out) = clock_reads st
  /\ posts (snd out) = S (posts st)
  /\ exists url body,
       url <> store_url env
       /\ trace (snd out)
          = (trace st ++ [EvHandlerCall (action automation); EvPost url body])%list.
Proof. apply agent_failure_effect. Qed.

Lemma agent_failure_escapes_witness :
  let env := with_transport sample_env (fun _ _ _ => Raise (IOError "unreachable")) in
  let out := execute_automation env "trend_detection" None engine_init in
  fst out = Raise (IOError "unreachable")
  /\ automations (snd out) = automations engine_init
  /\ clock_reads (snd out) = clock_reads engine_init
  /\ posts (snd out) = S (posts engine_init)
  /\ exists url body,
       url <> store_url env
       /\ trace (snd out)
          = (trace engine_init ++ [EvHandlerCall "detect_trends"; EvPost url body])%list.
Proof.
  apply (agent_failure_escapes
           (with_transport sample_env (fun _ _ _ => Raise (IOError "unreachable")))
           engine_init "trend_detection"
           (new_automation "trend_detection" "Industry Trend Detection" DISCOVERY SCHEDULED
              [("interval_hours", VInt 6)] "detect_trends" ["perplexity"])
           None (IOError "unreachable") eq_refl eq_refl).
  - vm_compute. tauto.
  - intros url body. reflexivity.
Defined.

(** ** The build pipeline *)

Lemma run_step_effect (w : Pipeline.World) (step_name command : string)
    (cwd : option string) (r : Pipeline.Run) :
  Pipeline.run_step w step_name command cwd r
  = (Pipeline.Returned (Pipeline.step_output w (Pipeline.commands r) command cwd),
     Pipeline.mkRun (S (Pipeline.commands r))
       (Pipeline.steps r ++ [Pipeline.Ran ("source ~/.bashrc && " ++ command) cwd])).
Proof.
  unfold Pipeline.run_step, Pipeline.try_except, Pipeline.bind, Pipeline.run_process,
    Pipeline.step_output, Pipeline.ret.
  destruct (Pipeline.subprocess_run w (Pipeline.commands r) _ cwd) as [result|e];
    cbn [Pipeline.of_outcome]; [|reflexivity].
  destruct (Pipeline.returncode result =? 0); reflexivity.
Qed.

(** X18. [run_step] never raises and runs exactly one shell command, the
    given one behind [source ~/.bashrc &&], in the given directory. It
    returns nothing when the shell could not be run or the command ended
    with a status other than 0, and otherwise the stripped output of the
    command. *)
Theorem run_step_contains_failures (w : Pipeline.World) (step_name command : string)
    (cwd : option string) (r : Pipeline.Run) :
  exists out,
    Pipeline.run_step w step_name command cwd r
    = (Pipeline.Returned out,
       Pipeline.mkRun (S (Pipeline.commands r))
         (Pipeline.steps r ++ [Pipeline.Ran ("source ~/.bashrc && " ++ command) cwd]))
    /\ match Pipeline.subprocess_run w (Pipeline.commands r)
               ("source ~/.bashrc && " ++ command) cwd with
       | Raise _ => out = None
       | Ret result =>
           (Pipeline.returncode result <> 0 -> out = None)
           /\ (Pipeline.returncode result = 0 ->
               out = Some (Pipeline.strip w (Pipeline.stdout result)))
       end.
Proof.
  eexists. split; [apply run_step_effect|]. unfold Pipeline.step_output.
  destruct (Pipeline.subprocess_run w (Pipeline.commands r) _ cwd) as [result|e];
    [|reflexivity].
  destruct (Z.eqb_spec (Pipeline.returncode result) 0); split; intros; congruence.
Qed.

(** X19. Without a product concept on the command line, [main] exits
    with status 1 at once: no directory is made, no command run, no file
    written. *)
Theorem pipeline_needs_a_concept (w : Pipeline.World) (r : Pipeline.Run) :
  (length (Pipeline.argv w) < 2)%nat ->
  Pipeline.main w r = (Pipeline.Exited 1, r).
Proof.
  intros Hlen. unfold Pipeline.main.
  destruct (Pipeline.argv w) as [|script [|concept rest]]; cbn [length] in Hlen;
    try reflexivity; lia.
Qed.

Lemma pipeline_needs_a_concept_witness :
  Pipeline.main (Pipeline.sample_world [] "none") (Pipeline.mkRun 0 [])
  = (Pipeline.Exited 1, Pipeline.mkRun 0 []).
Proof. apply pipeline_needs_a_concept. cbn. lia. Defined.

Lemma main_start (w : Pipeline.World) (r : Pipeline.Run) (script concept : string)
    (rest : list string) :
  Pipeline.argv w = script :: concept :: rest ->
  Pipeline.main w r
  = match Pipeline.makedirs w (Pipeline.work_dir w) with
    | Raise e =>
        (Pipeline.Raised e,
         Pipeline.mkRun (Pipeline.commands r)
           (Pipeline.steps r ++ [Pipeline.MadeDir (Pipeline.work_dir w)]))
    | Ret _ =>
        let r1 := Pipeline.mkRun (S (Pipeline.commands r))
                    (Pipeline.steps r
                     ++ [Pipeline.MadeDir (Pipeline.work_dir w);
                         Pipeline.Ran
                           ("source ~/.bashrc && " ++ Pipeline.market_command concept) None]) in
        match Pipeline.step_output w (Pipeline.commands r)
                (Pipeline.market_command concept) None with
        | None | Some EmptyString => (Pipeline.Exited 1, r1)
        | Some market_data =>
            Pipeline.bind
              (Pipeline.write_file w (Pipeline.work_dir w ++ "/1_market_data.json")
                 market_data)
              (fun _ =>
                 Pipeline.bind
                   (Pipeline.run_step w "Spec Generation"
                      (Pipeline.spec_command market_data) None)
                   (fun spec_doc =>
                      Pipeline.bind
                        (Pipeline.write_file w (Pipeline.work_dir w ++ "/2_product_spec.md")
                           (Pipeline.or_text spec_doc "Error generating spec"))
                        (fun _ =>
                           Pipeline.bind
                             (if existsb (String.eqb "--live") (Pipeline.argv w)
                              then Pipeline.bind
                                     (Pipeline.run_step w "Code Gen"
                                        (Pipeline.codex_command concept)
                                        (Some (Pipeline.work_dir w)))
                                     (fun _ => Pipeline.ret tt)
                              else Pipeline.ret tt)
                             (fun _ =>
                                Pipeline.bind
                                  (Pipeline.run_step w "Copywriting"
                                     (Pipeline.copy_command concept) None)
                                  (fun copy_text =>
                                     Pipeline.write_file w
                                       (Pipeline.work_dir w ++ "/4_landing_page.md")
                                       (Pipeline.or_text copy_text EmptyString))))))
              r1
        end
    end.
Proof.
  intros Hargv. unfold Pipeline.main. rewrite Hargv.
  unfold Pipeline.bind at 1. unfold Pipeline.ensure_artifacts_dir, Pipeline.bind at 1.
  unfold Pipeline.os_makedirs. fold (Pipeline.work_dir w).
  destruct (Pipeline.makedirs w (Pipeline.work_dir w)) as [[]|e];
    cbn [Pipeline.of_outcome]; [|reflexivity].
  unfold Pipeline.ret at 1. unfold Pipeline.bind at 1. rewrite run_step_effect.
  cbn [Pipeline.commands Pipeline.steps]. rewrite <- app_assoc. cbn [app].
  rewrite <- Hargv.
  destruct (Pipeline.step_output w (Pipeline.commands r) (Pipeline.market_command concept)
              None) as [[|c data]|]; reflexivity.
Qed.

(** X20. When the market analysis gives nothing -- the shell could not
    be run, the tool ended with a status other than 0, or its stripped
    output is empty -- [main] exits with status 1 after that one command:
    the run directory was made, no file is written and no further tool
    is run. When the run directory cannot be made, the error ends [main]
    before any command. *)
Theorem pipeline_aborts_without_market_data (w : Pipeline.World) (r : Pipeline.Run)
    (script concept : string) (rest : list string) :
  Pipeline.argv w = script :: concept :: rest ->
  (forall e, Pipeline.makedirs w (Pipeline.work_dir w) = Raise e ->
     Pipeline.main w r
     = (Pipeline.Raised e,
        Pipeline.mkRun (Pipeline.commands r)
          (Pipeline.steps r ++ [Pipeline.MadeDir (Pipeline.work_dir w)])))
  /\ (Pipeline.makedirs w (Pipeline.work_dir w) = Ret tt ->
      Pipeline.step_output w (Pipeline.commands r) (Pipeline.market_command concept) None
      = None
      \/ Pipeline.step_output w (Pipeline.commands r) (Pipeline.market_command concept) None
         = Some EmptyString ->
      Pipeline.main w r
      = (Pipeline.Exited 1,
         Pipeline.mkRun (S (Pipeline.commands r))
           (Pipeline.steps r
            ++ [Pipeline.MadeDir (Pipeline.work_dir w);
                Pipeline.Ran ("source ~/.bashrc && " ++ Pipeline.market_command concept)
                  None]))).
Proof.
  intros Hargv. rewrite (main_start w r script concept rest Hargv). split.
  - intros e ->. reflexivity.
  - intros -> [-> | ->]; reflexivity.
Qed.

Lemma pipeline_aborts_without_market_data_witness :
  Pipeline.main (Pipeline.sample_world ["roof quotes"] "brain gemini") (Pipeline.mkRun 0 [])
  = (Pipeline.Exited 1,
     Pipeline.mkRun 1
       [Pipeline.MadeDir "/opt/pipeline/artifacts/run_1762257600";
        Pipeline.Ran
          ("source ~/.bashrc && " ++ Pipeline.market_command "roof quotes") None]).
Proof.
  destruct (pipeline_aborts_without_market_data
              (Pipeline.sample_world ["roof quotes"] "brain gemini") (Pipeline.mkRun 0 [])
              "pipeline.py" "roof quotes" [] eq_refl) as [_ H].
  apply H; [reflexivity | left; vm_compute; reflexivity].
Defined.

(** X21. Once the market analysis has given a text, nothing a tool does
    stops [main]: with a file system that accepts the writes, it returns
    after writing three files -- the market data, the specification or
    ["Error generating spec"] when that step gave nothing, the landing
    page copy or the empty text -- having run the specification and the
    copy tools, and the code generator, in the run directory, exactly
    when ["--live"] is somewhere on the command line. No third file is
    written for the code step. *)
Theorem pipeline_completes (w : Pipeline.World) (r : Pipeline.Run)
    (script concept : string) (rest : list string) (c : ascii) (data : string) :
  Pipeline.argv w = script :: concept :: rest ->
  Pipeline.makedirs w (Pipeline.work_dir w) = Ret tt ->
  (forall path text, Pipeline.write_text w path text = Ret tt) ->
  Pipeline.step_output w (Pipeline.commands r) (Pipeline.market_command concept) None
  = Some (String c data) ->
  let market_data := String c data in
  let live := existsb (String.eqb "--live") (Pipeline.argv w) in
  let n := Pipeline.commands r in
  let dir := Pipeline.work_dir w in
  let spec_doc := Pipeline.step_output w (S n) (Pipeline.spec_command market_data) None in
  let copy_text :=
    Pipeline.step_output w (if live then S (S (S n)) else S (S n))
      (Pipeline.copy_command concept) None in
  Pipeline.main w r
  = (Pipeline.Returned tt,
     Pipeline.mkRun (if live then S (S (S (S n))) else S (S (S n)))
       (Pipeline.steps r
        ++ [Pipeline.MadeDir dir;
            Pipeline.Ran ("source ~/.bashrc && " ++ Pipeline.market_command concept) None;
            Pipeline.Wrote (dir ++ "/1_market_data.json") market_data;
            Pipeline.Ran ("source ~/.bashrc && " ++ Pipeline.spec_command market_data) None;
            Pipeline.Wrote (dir ++ "/2_product_spec.md")
              (Pipeline.or_text spec_doc "Error generating spec")]
        ++ (if live
            then [Pipeline.Ran ("source ~/.bashrc && " ++ Pipeline.codex_command concept)
                    (Some dir)]
            else [])
        ++ [Pipeline.Ran ("source ~/.bashrc && " ++ Pipeline.copy_command concept) None;
            Pipeline.Wrote (dir ++ "/4_landing_page.md")
              (Pipeline.or_text copy_text EmptyString)])%list).
Proof.
  intros Hargv Hdir Hwrite Hmarket market_data live n dir spec_doc copy_text.
  rewrite (main_start w r script concept rest Hargv), Hdir, Hmarket. cbv zeta.
  fold live. fold market_data. fold dir.
  unfold Pipeline.bind at 1. unfold Pipeline.write_file at 1. rewrite Hwrite.
  cbn [Pipeline.of_outcome Pipeline.commands Pipeline.steps].
  unfold Pipeline.bind at 1. rewrite run_step_effect.
  cbn [Pipeline.commands Pipeline.steps]. fold n. fold spec_doc.
  unfold Pipeline.bind at 1. unfold Pipeline.write_file at 1. rewrite Hwrite.
  cbn [Pipeline.of_outcome Pipeline.commands Pipeline.steps].
  unfold Pipeline.bind at 1. unfold copy_text.
  destruct live.
  - unfold Pipeline.bind at 1. rewrite run_step_effect. unfold Pipeline.ret.
    unfold Pipeline.bind at 1. rewrite run_step_effect.
    unfold Pipeline.write_file. rewrite Hwrite.
    cbn [Pipeline.of_outcome Pipeline.commands Pipeline.steps].
    rewrite <- !app_assoc. reflexivity.
  - unfold Pipeline.ret at 1. unfold Pipeline.bind at 1. rewrite run_step_effect.
    unfold Pipeline.write_file. rewrite Hwrite.
    cbn [Pipeline.of_outcome Pipeline.commands Pipeline.steps].
    rewrite <- !app_assoc. reflexivity.
Qed.

(** A run whose concept is ["--live"] itself, in a world where the
    [claude] tool is missing: live mode is on, the specification falls
    back to its error text and the copy to the empty text. *)
Lemma pipeline_completes_witness :
  Pipeline.main (Pipeline.sample_world ["--live"] "brain claude") (Pipeline.mkRun 0 [])
  = (Pipeline.Returned tt,
     Pipeline.mkRun 4
       [Pipeline.MadeDir "/opt/pipeline/artifacts/run_1762257600";
        Pipeline.Ran ("source ~/.bashrc && " ++ Pipeline.market_command "--live") None;
        Pipeline.Wrote "/opt/pipeline/artifacts/run_1762257600/1_market_data.json" "done";
        Pipeline.Ran ("source ~/.bashrc && " ++ Pipeline.spec_command "done") None;
        Pipeline.Wrote "/opt/pipeline/artifacts/run_1762257600/2_product_spec.md"
          "Error generating spec";
        Pipeline.Ran ("source ~/.bashrc && " ++ Pipeline.codex_command "--live")
          (Some "/opt/pipeline/artifacts/run_1762257600");
        Pipeline.Ran ("source ~/.bashrc && " ++ Pipeline.copy_command "--live") None;
        Pipeline.Wrote "/opt/pipeline/artifacts/run_1762257600/4_landing_page.md"
          EmptyString]).
Proof.
  pose proof (pipeline_completes (Pipeline.sample_world ["--live"] "brain claude")
                (Pipeline.mkRun 0 []) "pipeline.py" "--live" [] "d"%char "one"
                eq_refl eq_refl (fun _ _ => eq_refl)) as H.
  assert (Hmarket : Pipeline.step_output (Pipeline.sample_world ["--live"] "brain claude")
                      (Pipeline.commands (Pipeline.mkRun 0 []))
                      (Pipeline.market_command "--live") None
                    = Some "done") by (vm_compute; reflexivity).
  specialize (H Hmarket). rewrite H. vm_compute. reflexivity.
Defined.

(** ** A failing agent and the fan-out *)

(** X22. [handle_webhook] does not contain the failure of an agent: when
    the first listener of the event is enabled, has an action that asks an
    agent, and that request fails, the exception leaves [handle_webhook];
    nothing is recorded for that listener, the listeners after it are not
    run, and no result is returned for any of them. *)
Theorem webhook_aborts_on_agent_failure (env : Env) (event_type : string) (payload : Dict)
    (st : State) (first : Automation) (others : list Automation) (e : exn) :
  registry_ok (automations st) ->
  select_event_automations event_type (automations st) = first :: others ->
  enabled first = true ->
  In (action first) agent_actions ->
  request_fails env (posts st) e ->
  let out := handle_webhook env event_type payload st in
  fst out = Raise e
  /\ automations (snd out) = automations st
  /\ posts (snd out) = S (posts st).
Proof.
  intros Hok Hsel Hon Hact Hfail out. subst out.
  assert (Hget : dict_get (automations st) (id first) = Some first).
  { apply ok_value_lookup; [assumption|].
    assert (Hin : In first (select_event_automations event_type (automations st)))
      by (rewrite Hsel; now left).
    unfold select_event_automations in Hin. now apply filter_In in Hin. }
  destruct (agent_failure_effect env st (id first) first (Some payload) e Hget Hon Hact Hfail)
    as (Hout & Hreg & _ & Hposts & _).
  assert (Hrun : handle_webhook env event_type payload st
                 = (Raise e, snd (execute_automation env (id first) (Some payload) st))).
  { unfold handle_webhook, bind. rewrite Hsel. cbn [webhook_loop]. unfold bind.
    destruct (execute_automation env (id first) (Some payload) st) as [[r|e'] st1];
      cbn [fst snd] in *; [discriminate | congruence]. }
  rewrite Hrun. cbn [fst snd]. auto.
Qed.

Lemma webhook_aborts_on_agent_failure_witness :
  let env := with_transport sample_env (fun _ _ _ => Raise (IOError "unreachable")) in
  let out := handle_webhook env "opportunity_discovered" [] engine_with_mailer in
  fst out = Raise (IOError "unreachable")
  /\ automations (snd out) = automations engine_with_mailer
  /\ posts (snd out) = S (posts engine_with_mailer).
Proof.
  apply (webhook_aborts_on_agent_failure
           (with_transport sample_env (fun _ _ _ => Raise (IOError "unreachable")))
           "opportunity_discovered" [] engine_with_mailer
           (new_automation "template_generation" "Template Product Generator" GENERATION
              EVENT [("event", VStr "opportunity_discovered")] "generate_template_product"
              ["claude"; "codex"])
           [lead_mailer] (IOError "unreachable")).
  - apply register_keeps_ok, engine_init_ok.
  - vm_compute. reflexivity.
  - reflexivity.
  - vm_compute. tauto.
  - intros url body. reflexivity.
Defined.
